(** * Reservation store of the classroom booking service

    A shallow embedding of [reservation_db.py]: the time and date parsers,
    the slot and overlap checks, and the operations on the process-wide
    reservation dictionary with its id counter and its JSON file.

    Modelling conventions.
    - A Python [str] is a [string] holding its UTF-8 bytes; equality and
      ordering of byte strings coincide with Python's equality and
      code-point ordering.  The built-in [int()] and [strptime] are
      modelled on ASCII input: a string with a non-ASCII byte is rejected,
      although CPython also reads other Unicode decimal digits and spaces.
    - A Python [int] is a [Z].
    - A [dict] is an association list in insertion order.
    - A function that can raise returns a [result]; a function that touches
      the module globals takes and returns the [world]. *)

From Stdlib Require Import ZArith List String Ascii Bool Lia Permutation Sorted.
From Stdlib Require DecimalString DecimalZ DecimalPos.
Import ListNotations.
Local Open Scope string_scope.
Local Open Scope Z_scope.

(** ** Exceptions and results *)

Inductive exn : Type :=
| ValueError (msg : string)
| OverflowError.

Inductive result (A : Type) : Type :=
| Ok (a : A)
| Raise (e : exn).
Arguments Ok {A} a.
Arguments Raise {A} e.

Definition bind {A B : Type} (r : result A) (k : A -> result B) : result B :=
  match r with
  | Ok a => k a
  | Raise e => Raise e
  end.

Notation "x <- r ;; k" := (bind r (fun x => k))
  (at level 61, r at next level, right associativity).

(** ** Built-ins used by the parsers *)

Definition code (c : ascii) : Z := Z.of_N (N_of_ascii c).

(** Py_ISSPACE on ASCII: space, \t, \n, \v, \f, \r. *)
Definition is_space (c : ascii) : bool :=
  (code c =? 32) || ((9 <=? code c) && (code c <=? 13)).

Definition digit_val (c : ascii) : option Z :=
  if (48 <=? code c) && (code c <=? 57) then Some (code c - 48) else None.

Definition in_range (lo hi : ascii) (c : ascii) : bool :=
  (code lo <=? code c) && (code c <=? code hi).

Fixpoint lstrip (s : string) : string :=
  match s with
  | String c r => if is_space c then lstrip r else s
  | EmptyString => EmptyString
  end.

Fixpoint rstrip (s : string) : string :=
  match s with
  | EmptyString => EmptyString
  | String c r =>
      let r' := rstrip r in
      if is_space c && (r' =? "")%string then EmptyString else String c r'
  end.

(** Decimal digits, single underscores allowed between two digits.
    Returns the value and the number of digit characters. *)
Fixpoint digits_from (s : string) (acc : Z) (count : Z) (after_digit : bool)
  : option (Z * Z) :=
  match s with
  | EmptyString => if after_digit then Some (acc, count) else None
  | String c r =>
      match digit_val c with
      | Some d => digits_from r (10 * acc + d) (count + 1) true
      | None =>
          if (c =? "_")%char && after_digit
          then digits_from r acc count false
          else None
      end
  end.

(** sys.int_info.default_max_str_digits *)
Definition MAX_STR_DIGITS : Z := 4300.

Definition invalid_literal : exn := ValueError "invalid literal for int() with base 10".

(** [int(s)] for a [str] argument, base 10. Every failure is a ValueError. *)
Definition py_int (s : string) : result Z :=
  let body := rstrip (lstrip s) in
  let '(neg, ds) :=
    match body with
    | String "-" r => (true, r)
    | String "+" r => (false, r)
    | _ => (false, body)
    end in
  match digits_from ds 0 0 false with
  | Some (v, n) =>
      if MAX_STR_DIGITS <? n
      then Raise (ValueError "Exceeds the limit (4300 digits) for integer string conversion")
      else Ok (if neg then - v else v)
  | None => Raise invalid_literal
  end.

(** [s.split(":")]: never empty. *)
Fixpoint split_colon (s : string) : list string :=
  match s with
  | EmptyString => [EmptyString]
  | String c r =>
      if (c =? ":")%char then EmptyString :: split_colon r
      else match split_colon r with
           | h :: t => String c h :: t
           | [] => [String c EmptyString]
           end
  end.

(** ** datetime.time, datetime.date, datetime.datetime *)

Record pytime : Type := mk_time { hour : Z; minute : Z }.

Record pydate : Type := mk_date { year : Z; month : Z; day : Z }.

Record datetime : Type := mk_datetime {
  dt_year : Z; dt_month : Z; dt_day : Z;
  dt_hour : Z; dt_minute : Z; dt_second : Z; dt_microsecond : Z
}.

Definition INT_MIN : Z := -2147483648.
Definition INT_MAX : Z := 2147483647.

Definition fits_c_int (n : Z) : bool := (INT_MIN <=? n) && (n <=? INT_MAX).

(** The constructor [time(hour, minute)] of CPython's C implementation:
    both arguments are first converted to C [int] (OverflowError when one
    does not fit), then range-checked (ValueError). *)
Definition time_new (h m : Z) : result pytime :=
  if negb (fits_c_int h && fits_c_int m) then Raise OverflowError
  else if negb ((0 <=? h) && (h <=? 23)) then Raise (ValueError "hour must be in 0..23")
  else if negb ((0 <=? m) && (m <=? 59)) then Raise (ValueError "minute must be in 0..59")
  else Ok (mk_time h m).

Definition is_leap (y : Z) : bool :=
  (y mod 4 =? 0) && (negb (y mod 100 =? 0) || (y mod 400 =? 0)).

Definition days_in_month (y m : Z) : Z :=
  if m =? 2 then (if is_leap y then 29 else 28)
  else if (m =? 4) || (m =? 6) || (m =? 9) || (m =? 11) then 30
  else 31.

Definition no_match : exn := ValueError "time data does not match format '%Y-%m-%d'".

(** The directive %m: the regular expression 1[0-2]|0[1-9]|[1-9]. *)
Definition match_month (s : string) : option (Z * string) :=
  match s with
  | String a r =>
      let two :=
        match r with
        | String b r' =>
            if (a =? "1")%char && in_range "0" "2" b then Some (10 + (code b - 48), r')
            else if (a =? "0")%char && in_range "1" "9" b then Some (code b - 48, r')
            else None
        | EmptyString => None
        end in
      match two with
      | Some x => Some x
      | None => if in_range "1" "9" a then Some (code a - 48, r) else None
      end
  | EmptyString => None
  end.

(** The directive %d: 3[01]|[12]\d|0[1-9]|[1-9]| [1-9]. *)
Definition match_day (s : string) : option (Z * string) :=
  match s with
  | String a r =>
      let two :=
        match r with
        | String b r' =>
            if (a =? "3")%char && in_range "0" "1" b then Some (30 + (code b - 48), r')
            else if in_range "1" "2" a && in_range "0" "9" b
                 then Some (10 * (code a - 48) + (code b - 48), r')
            else if (a =? "0")%char && in_range "1" "9" b then Some (code b - 48, r')
            else None
        | EmptyString => None
        end in
      match two with
      | Some x => Some x
      | None =>
          if in_range "1" "9" a then Some (code a - 48, r)
          else match r with
               | String b r' =>
                   if (a =? " ")%char && in_range "1" "9" b then Some (code b - 48, r')
                   else None
               | EmptyString => None
               end
      end
  | EmptyString => None
  end.

(** The directive %Y: four digits. *)
Definition match_year (s : string) : option (Z * string) :=
  match s with
  | String a (String b (String c (String d r))) =>
      match digit_val a, digit_val b, digit_val c, digit_val d with
      | Some x, Some y, Some z, Some w => Some (1000 * x + 100 * y + 10 * z + w, r)
      | _, _, _, _ => None
      end
  | _ => None
  end.

(** [datetime.strptime(s, "%Y-%m-%d").date()] *)
Definition strptime_date (s : string) : result pydate :=
  match match_year s with
  | Some (y, String "-" s1) =>
      match match_month s1 with
      | Some (m, String "-" s2) =>
          match match_day s2 with
          | Some (d, EmptyString) =>
              if y <? 1 then Raise (ValueError "year 0 is out of range")
              else if days_in_month y m <? d
                   then Raise (ValueError "day is out of range for month")
                   else Ok (mk_date y m d)
          | Some (_, String _ _) => Raise (ValueError "unconverted data remains")
          | None => Raise no_match
          end
      | _ => Raise no_match
      end
  | _ => Raise no_match
  end.

(** [datetime.combine(d, t)] *)
Definition combine (d : pydate) (t : pytime) : datetime :=
  mk_datetime (year d) (month d) (day d) (hour t) (minute t) 0 0.

Definition fields (x : datetime) : list Z :=
  [dt_year x; dt_month x; dt_day x; dt_hour x; dt_minute x; dt_second x; dt_microsecond x].

Fixpoint lex_ltb (a b : list Z) : bool :=
  match a, b with
  | x :: a', y :: b' => (x <? y) || ((x =? y) && lex_ltb a' b')
  | [], _ :: _ => true
  | _, [] => false
  end.

(** [a < b] on naive datetimes. *)
Definition datetime_ltb (a b : datetime) : bool := lex_ltb (fields a) (fields b).

(** ** The module's own helpers *)

Definition BAD_TIME_FORMAT : string := "잘못된 시간 형식: ".
Definition BAD_DATE_FORMAT : string := "잘못된 날짜 형식: ".

(** [_parse_time]: the handler rewrites ValueError (AttributeError cannot
    occur on a [str]); any other exception passes through. *)
Definition _parse_time (time_str : string) : result pytime :=
  let attempt :=
    match split_colon time_str with
    | [a; b] => h <- py_int a ;; m <- py_int b ;; time_new h m
    | _ => Raise (ValueError "wrong number of values to unpack")
    end in
  match attempt with
  | Ok t => Ok t
  | Raise (ValueError _) => Raise (ValueError (BAD_TIME_FORMAT ++ time_str)%string)
  | Raise e => Raise e
  end.

(** [_parse_date] *)
Definition _parse_date (date_str : string) : result pydate :=
  match strptime_date date_str with
  | Ok d => Ok d
  | Raise (ValueError _) => Raise (ValueError (BAD_DATE_FORMAT ++ date_str)%string)
  | Raise e => Raise e
  end.

(** [_is_past_datetime], with the reading of the clock made an argument. *)
Definition _is_past_datetime (now : datetime) (reservation_date : pydate)
  (start_time : pytime) : bool :=
  let reservation_datetime := combine reservation_date start_time in
  datetime_ltb reservation_datetime now.

Definition _is_valid_time_slot (start_time end_time : pytime) : bool :=
  if negb (minute start_time =? 0) || negb (minute end_time =? 0) then false
  else
    let expected_end_hour := (hour start_time + 1) mod 24 in
    hour end_time =? expected_end_hour.

Definition time_to_minutes (t : pytime) : Z := hour t * 60 + minute t.

Definition _is_time_overlap (start1 end1 start2 end2 : pytime) : bool :=
  let start1_min := time_to_minutes start1 in
  let end1_min := time_to_minutes end1 in
  let start2_min := time_to_minutes start2 in
  let end2_min := time_to_minutes end2 in
  (start1_min <? end2_min) && (start2_min <? end1_min).

(** ** The store *)

Record reservation : Type := mk_reservation {
  user_id : string;
  classroom_id : Z;
  date : string;
  start_time : string;
  end_time : string
}.

(** [dict[int, dict]], in insertion order. *)
Definition pydict : Type := list (Z * reservation).

Fixpoint dict_get (k : Z) (d : pydict) : option reservation :=
  match d with
  | [] => None
  | (k', v) :: r => if k' =? k then Some v else dict_get k r
  end.

Definition dict_mem (k : Z) (d : pydict) : bool :=
  match dict_get k d with
  | Some _ => true
  | None => false
  end.

(** [d[k] = v]: an existing key keeps its place, a new key goes last. *)
Fixpoint dict_set (k : Z) (v : reservation) (d : pydict) : pydict :=
  match d with
  | [] => [(k, v)]
  | (k', v') :: r => if k' =? k then (k, v) :: r else (k', v') :: dict_set k v r
  end.

(** [del d[k]] *)
Definition dict_del (k : Z) (d : pydict) : pydict :=
  filter (fun kv => negb (fst kv =? k)) d.

Definition values (d : pydict) : list reservation := map snd d.

Definition keys (d : pydict) : list Z := map fst d.

(** The file reservations.json. *)
Inductive file_state : Type :=
| Missing
| Corrupt
| Document (reservations : pydict) (next_id : Z).

(** What the attempt to write the file does: it completes, or IOError is
    raised and the file is left in some state. *)
Inductive write_outcome : Type :=
| Written
| IOFailed (remains : file_state).

(** The module globals and the file. *)
Record world : Type := mk_world {
  RESERVATIONS : pydict;
  _next_id : Z;
  file : file_state
}.

(** What a call reads from outside the store. *)
Record env : Type := mk_env {
  now : datetime;
  io : write_outcome
}.

Definition _load_reservations (f : file_state) : pydict * Z :=
  match f with
  | Document reservations next_id => (reservations, next_id)
  | Missing | Corrupt => ([], 1)
  end.

(** The state after the module is imported. *)
Definition startup (f : file_state) : world :=
  let '(loaded_reservations, loaded_next_id) := _load_reservations f in
  mk_world loaded_reservations loaded_next_id f.

(** [_save_reservations]: IOError is swallowed. *)
Definition _save_reservations (o : write_outcome) (w : world) : world :=
  match o with
  | Written =>
      mk_world (RESERVATIONS w) (_next_id w) (Document (RESERVATIONS w) (_next_id w))
  | IOFailed remains => mk_world (RESERVATIONS w) (_next_id w) remains
  end.

Definition MSG_PAST : string := "과거 시간은 예약할 수 없습니다.".
Definition MSG_SLOT : string :=
  "예약은 정시~정시 1시간 단위로만 가능합니다. (예: 14:00~15:00)".
Definition MSG_CONFLICT : string := "해당 시간에 이미 예약이 존재합니다.".
Definition MSG_CREATED : string := "예약이 성공적으로 생성되었습니다.".
Definition MSG_NOT_FOUND : string := "존재하지 않는 예약입니다.".
Definition MSG_NOT_OWNER : string := "본인의 예약만 취소할 수 있습니다.".
Definition MSG_CANCELLED : string := "예약이 취소되었습니다.".

(** ** create_reservation *)

(** Step 1, the body of the [try]. *)
Definition parse_inputs (reservation_date start_time_str end_time_str : string)
  : result (pydate * pytime * pytime) :=
  reservation_date_obj <- _parse_date reservation_date ;;
  start_time_obj <- _parse_time start_time_str ;;
  end_time_obj <- _parse_time end_time_str ;;
  Ok (reservation_date_obj, start_time_obj, end_time_obj).

(** Step 4, the loop over [RESERVATIONS.values()]: [Ok true] when it
    returns from inside the loop, [Ok false] when it runs to the end. *)
Fixpoint scan_conflicts (cid : Z) (reservation_date : string)
  (start_time_obj end_time_obj : pytime) (vals : list reservation) : result bool :=
  match vals with
  | [] => Ok false
  | r :: rest =>
      if (classroom_id r =? cid) && (date r =? reservation_date)%string then
        existing_start <- _parse_time (start_time r) ;;
        existing_end <- _parse_time (end_time r) ;;
        if _is_time_overlap start_time_obj end_time_obj existing_start existing_end
        then Ok true
        else scan_conflicts cid reservation_date start_time_obj end_time_obj rest
      else scan_conflicts cid reservation_date start_time_obj end_time_obj rest
  end.

Definition create_reservation (e : env) (user : string) (cid : Z)
  (reservation_date start_time_str end_time_str : string) (w : world)
  : result (bool * string) * world :=
  match parse_inputs reservation_date start_time_str end_time_str with
  | Raise (ValueError msg) => (Ok (false, msg), w)
  | Raise ex => (Raise ex, w)
  | Ok (reservation_date_obj, start_time_obj, end_time_obj) =>
      if _is_past_datetime (now e) reservation_date_obj start_time_obj
      then (Ok (false, MSG_PAST), w)
      else if negb (_is_valid_time_slot start_time_obj end_time_obj)
      then (Ok (false, MSG_SLOT), w)
      else
        match scan_conflicts cid reservation_date start_time_obj end_time_obj
                (values (RESERVATIONS w)) with
        | Raise ex => (Raise ex, w)
        | Ok true => (Ok (false, MSG_CONFLICT), w)
        | Ok false =>
            let reservation_id := _next_id w in
            let record :=
              mk_reservation user cid reservation_date start_time_str end_time_str in
            let w1 :=
              mk_world (dict_set reservation_id record (RESERVATIONS w))
                       (_next_id w + 1) (file w) in
            (Ok (true, MSG_CREATED), _save_reservations (io e) w1)
        end
  end.

(** ** Queries *)

Definition get_reservation (reservation_id : Z) (w : world) : option reservation :=
  dict_get reservation_id (RESERVATIONS w).

(** A returned entry [{**reservation, "id": res_id}] is the pair of the id
    and the record. *)
Definition get_user_reservations (user : string) (w : world) : list (Z * reservation) :=
  filter (fun kv => (user_id (snd kv) =? user)%string) (RESERVATIONS w).

(** The key of the sort, a tuple of two strings, and [<] on such tuples. *)
Definition sort_key (kv : Z * reservation) : string * string :=
  (date (snd kv), start_time (snd kv)).

Definition key_ltb (a b : string * string) : bool :=
  if (fst a =? fst b)%string then (snd a <? snd b)%string else (fst a <? fst b)%string.

(** [list.sort(key=...)] is stable; the stable arrangement of a list is
    unique, so insertion from the right stands for it. *)
Fixpoint insert_sorted (x : Z * reservation) (l : list (Z * reservation))
  : list (Z * reservation) :=
  match l with
  | [] => [x]
  | y :: l' =>
      if key_ltb (sort_key y) (sort_key x) then y :: insert_sorted x l' else x :: l
  end.

Fixpoint sort_by_key (l : list (Z * reservation)) : list (Z * reservation) :=
  match l with
  | [] => []
  | x :: l' => insert_sorted x (sort_by_key l')
  end.

(** [if date:] holds for a string that is neither None nor empty. *)
Definition truthy (d : option string) : bool :=
  match d with
  | Some s => negb (s =? "")%string
  | None => false
  end.

Definition date_is (d : option string) (kv : Z * reservation) : bool :=
  match d with
  | Some s => (date (snd kv) =? s)%string
  | None => false
  end.

Definition get_classroom_reservations (cid : Z) (d : option string) (w : world)
  : list (Z * reservation) :=
  let reservations :=
    filter (fun kv => classroom_id (snd kv) =? cid) (RESERVATIONS w) in
  let reservations :=
    if truthy d then filter (date_is d) reservations else reservations in
  sort_by_key reservations.

(** ** Removal *)

(** [cancel_reservation]: the membership test and the lookup are one match. *)
Definition cancel_reservation (o : write_outcome) (reservation_id : Z) (user : string)
  (w : world) : (bool * string) * world :=
  match dict_get reservation_id (RESERVATIONS w) with
  | None => ((false, MSG_NOT_FOUND), w)
  | Some r =>
      if negb (user_id r =? user)%string then ((false, MSG_NOT_OWNER), w)
      else
        let w1 :=
          mk_world (dict_del reservation_id (RESERVATIONS w)) (_next_id w) (file w) in
        ((true, MSG_CANCELLED), _save_reservations o w1)
  end.

Definition delete_reservation (o : write_outcome) (reservation_id : Z) (w : world)
  : bool * world :=
  if dict_mem reservation_id (RESERVATIONS w) then
    let w1 :=
      mk_world (dict_del reservation_id (RESERVATIONS w)) (_next_id w) (file w) in
    (true, _save_reservations o w1)
  else (false, w).

(** ** Sequences of mutating calls *)

Inductive op : Type :=
| Create (e : env) (user : string) (cid : Z)
         (reservation_date start_time_str end_time_str : string)
| Cancel (o : write_outcome) (reservation_id : Z) (user : string)
| Delete (o : write_outcome) (reservation_id : Z).

Definition step (c : op) (w : world) : world :=
  match c with
  | Create e user cid d s t => snd (create_reservation e user cid d s t w)
  | Cancel o i user => snd (cancel_reservation o i user w)
  | Delete o i => snd (delete_reservation o i w)
  end.

Definition run (cs : list op) (w : world) : world :=
  fold_left (fun w c => step c w) cs w.

Definition empty_world : world := startup Missing.

(** A clock reading and two environments used in the examples. *)
Definition noon_2026 : datetime := mk_datetime 2026 11 3 12 0 0 0.
Definition env_ok : env := mk_env noon_2026 Written.
Definition env_io_fails : env := mk_env noon_2026 (IOFailed Corrupt).

(** ** Properties of a store *)

(** The state to which a successful [create_reservation] moves. *)
Definition created (e : env) (user : string) (cid : Z)
  (reservation_date start_time_str end_time_str : string) (w : world) : world :=
  _save_reservations (io e)
    (mk_world
       (dict_set (_next_id w)
          (mk_reservation user cid reservation_date start_time_str end_time_str)
          (RESERVATIONS w))
       (_next_id w + 1) (file w)).

(** The interval of a stored record, read the way the conflict scan reads
    it; a record whose strings do not parse has none. *)
Definition stored_interval (r : reservation) : option (pytime * pytime) :=
  match _parse_time (start_time r), _parse_time (end_time r) with
  | Ok s, Ok e => Some (s, e)
  | _, _ => None
  end.

Definition overlapping (r1 r2 : reservation) : bool :=
  match stored_interval r1, stored_interval r2 with
  | Some (s1, e1), Some (s2, e2) => _is_time_overlap s1 e1 s2 e2
  | _, _ => false
  end.

(** Same classroom, same date string, overlapping intervals. *)
Definition clash (r1 r2 : reservation) : bool :=
  (classroom_id r1 =? classroom_id r2)
  && (date r1 =? date r2)%string
  && overlapping r1 r2.

(** No two entries with different ids stand in the relation [bad]. *)
Definition free_of (bad : reservation -> reservation -> Prop) (w : world) : Prop :=
  forall i j r1 r2,
    In (i, r1) (RESERVATIONS w) -> In (j, r2) (RESERVATIONS w) ->
    i <> j -> ~ bad r1 r2.

Definition no_double_booking (w : world) : Prop :=
  forall i j r1 r2,
    In (i, r1) (RESERVATIONS w) -> In (j, r2) (RESERVATIONS w) ->
    i <> j -> clash r1 r2 = false.

(** The same property with the intervals read as sets of minutes: same
    classroom, same date string, and a minute m with start <= m < end in
    both. *)
Definition share_minute (r1 r2 : reservation) : Prop :=
  exists s1 e1 s2 e2 m,
    stored_interval r1 = Some (s1, e1) /\ stored_interval r2 = Some (s2, e2)
    /\ time_to_minutes s1 <= m < time_to_minutes e1
    /\ time_to_minutes s2 <= m < time_to_minutes e2.

Definition crowded (r1 r2 : reservation) : Prop :=
  classroom_id r1 = classroom_id r2 /\ date r1 = date r2 /\ share_minute r1 r2.

Definition no_common_minute (w : world) : Prop := free_of crowded w.

Definition no_double_bookingb (w : world) : bool :=
  forallb (fun p =>
    forallb (fun q => (fst p =? fst q) || negb (clash (snd p) (snd q)))
            (RESERVATIONS w))
    (RESERVATIONS w).

(** The counter is above every id in the store. *)
Definition counter_above_ids (w : world) : Prop :=
  Forall (fun k => k < _next_id w) (keys (RESERVATIONS w)).

(** Every stored time string parses. *)
Definition stored_times_parse (w : world) : Prop :=
  Forall (fun r => stored_interval r <> None) (values (RESERVATIONS w)).

(** The reading of "the call returns the new id": some decoding of the
    returned value yields the id under which the record was stored. *)
Definition returns_new_id (id_of : result (bool * string) -> Z) : Prop :=
  forall e user cid d s t w msg w',
    create_reservation e user cid d s t w = (Ok (true, msg), w') ->
    id_of (Ok (true, msg)) = _next_id w.

(** Stores used in the examples. *)
Definition booked_14 : reservation :=
  mk_reservation "u1" 1 "2099-01-01" "14:00" "15:00".
Definition booked_15 : reservation :=
  mk_reservation "u2" 1 "2099-01-01" "15:00" "16:00".
Definition one_booking : world :=
  mk_world [(1, booked_14)] 2 (Document [(1, booked_14)] 2).
Definition two_bookings : world :=
  mk_world [(1, booked_14); (4, booked_15)] 5 Missing.

(** [<] on the key tuples, as a three-way comparison. *)
Definition key_compare (a b : string * string) : comparison :=
  match String.compare (fst a) (fst b) with
  | Eq => String.compare (snd a) (snd b)
  | c => c
  end.

(** Ordering of listed entries. [key_le a b]: the key of [b] is not below
    the key of [a]. *)
Definition key_le (a b : Z * reservation) : Prop :=
  key_ltb (sort_key b) (sort_key a) = false.

Definition start_lt (a b : Z * reservation) : Prop :=
  (start_time (snd a) <? start_time (snd b))%string = true.

(** The entries a listing is asked for. *)
Definition wanted (cid : Z) (d : option string) (kv : Z * reservation) : bool :=
  (classroom_id (snd kv) =? cid) && (if truthy d then date_is d kv else true).

(** A stored interval whose start is before its end. *)
Definition positive_interval (r : reservation) : Prop :=
  match stored_interval r with
  | Some (s, e) => time_to_minutes s < time_to_minutes e
  | None => False
  end.

(** Two accepted bookings of the last slot of a day. *)
Definition late_twice : world :=
  run [Create env_ok "u1" 1 "2099-01-01" "23:00" "00:00";
       Create env_ok "u2" 1 "2099-01-01" "23:00" "00:00"] empty_world.

(** A store whose insertion order is not the listing order, and a run of
    calls on the two-booking store. *)
Definition unsorted_bookings : world :=
  mk_world
    [(1, booked_15); (2, booked_14);
     (3, mk_reservation "u3" 2 "2099-01-01" "14:00" "15:00");
     (5, mk_reservation "u1" 1 "2099-01-02" "09:00" "10:00")]
    6 Missing.

Definition busy_day : list op :=
  [Create env_ok "u3" 1 "2099-01-01" "14:00" "15:00";
   Create env_ok "u3" 1 "2099-01-01" "16:00" "17:00";
   Cancel Written 1 "u1";
   Create env_io_fails "u3" 1 "2099-01-01" "14:00" "15:00";
   Delete Written 4;
   Create env_ok "u1" 1 "2099-01-01" "23:00" "00:00"].

(** ** The file's document *)

(** [str(k)] for an int: the decimal digits, a minus sign before those of
    a negative number; ValueError beyond the digit limit. *)
Definition digits_of (d : Decimal.signed_int) : Decimal.uint :=
  match d with
  | Decimal.Pos u => u
  | Decimal.Neg u => u
  end.

Definition py_str (k : Z) : result string :=
  let d := Z.to_int k in
  if MAX_STR_DIGITS <? Z.of_nat (Decimal.nb_digits (digits_of d))
  then Raise (ValueError "Exceeds the limit (4300 digits) for integer string conversion")
  else Ok (DecimalString.NilZero.string_of_int d).

(** The object that [json.dump] writes and [json.load] returns: the
    entries of "reservations" under string keys, and "next_id"; either
    member may be missing from a file. *)
Record json_document : Type := mk_document {
  doc_reservations : option (list (string * reservation));
  doc_next_id : option Z
}.

(** [{str(k): v for k, v in RESERVATIONS.items()}], a dictionary with
    string keys. *)
Fixpoint str_dict_set (k : string) (v : reservation) (d : list (string * reservation))
  : list (string * reservation) :=
  match d with
  | [] => [(k, v)]
  | (k', v') :: r =>
      if (k' =? k)%string then (k, v) :: r else (k', v') :: str_dict_set k v r
  end.

Fixpoint keys_to_str (items : pydict) (acc : list (string * reservation))
  : result (list (string * reservation)) :=
  match items with
  | [] => Ok acc
  | (k, v) :: rest => s <- py_str k ;; keys_to_str rest (str_dict_set s v acc)
  end.

(** The [data] of [_save_reservations]. *)
Definition to_document (w : world) : result json_document :=
  reservations <- keys_to_str (RESERVATIONS w) [] ;;
  Ok (mk_document (Some reservations) (Some (_next_id w))).

(** [{int(k): v for k, v in ...items()}] *)
Fixpoint keys_to_int (items : list (string * reservation)) (acc : pydict)
  : result pydict :=
  match items with
  | [] => Ok acc
  | (k, v) :: rest => i <- py_int k ;; keys_to_int rest (dict_set i v acc)
  end.

(** What [_load_reservations] makes of the document of an existing,
    readable file: the handler turns ValueError into the empty store. *)
Definition from_document (doc : json_document) : result (pydict * Z) :=
  let attempt :=
    reservations <-
      keys_to_int (match doc_reservations doc with Some items => items | None => [] end) [] ;;
    let next_id := match doc_next_id doc with Some n => n | None => 1 end in
    Ok (reservations, next_id) in
  match attempt with
  | Ok loaded => Ok loaded
  | Raise (ValueError _) => Ok ([], 1)
  | Raise e => Raise e
  end.

(** The value of a digit sequence read after a prefix of value [acc]. *)
Fixpoint uint_value (u : Decimal.uint) (acc : Z) : Z :=
  match u with
  | Decimal.Nil => acc
  | Decimal.D0 u' => uint_value u' (10 * acc + 0)
  | Decimal.D1 u' => uint_value u' (10 * acc + 1)
  | Decimal.D2 u' => uint_value u' (10 * acc + 2)
  | Decimal.D3 u' => uint_value u' (10 * acc + 3)
  | Decimal.D4 u' => uint_value u' (10 * acc + 4)
  | Decimal.D5 u' => uint_value u' (10 * acc + 5)
  | Decimal.D6 u' => uint_value u' (10 * acc + 6)
  | Decimal.D7 u' => uint_value u' (10 * acc + 7)
  | Decimal.D8 u' => uint_value u' (10 * acc + 8)
  | Decimal.D9 u' => uint_value u' (10 * acc + 9)
  end.

(** A dictionary with string keys that holds the entries of one with int
    keys, each key written by [str]. *)
Definition rendered (j : list (string * reservation)) (d : pydict) : Prop :=
  Forall2 (fun sv kv => py_str (fst kv) = Ok (fst sv) /\ snd sv = snd kv) j d.

(** ** Further properties of a store *)

(** What [create_reservation] has checked of a record it stored. *)
Definition bookable (r : reservation) : Prop :=
  exists d s e,
    _parse_date (date r) = Ok d
    /\ _parse_time (start_time r) = Ok s
    /\ _parse_time (end_time r) = Ok e
    /\ _is_valid_time_slot s e = true.

Definition all_bookable (w : world) : Prop :=
  Forall bookable (values (RESERVATIONS w)).

(** Stores and clock readings used in further examples. *)
Definition evening_2026 : datetime := mk_datetime 2026 11 3 20 30 0 0.
Definition booked_late : reservation :=
  mk_reservation "u1" 1 "2099-01-01" "23:00" "00:00".
Definition late_booking : world := mk_world [(1, booked_late)] 2 Missing.

(** ** Dictionaries of the other modules *)

Section Assoc.
Context {K V : Type} (eqb : K -> K -> bool).

Fixpoint assoc_get (k : K) (d : list (K * V)) : option V :=
  match d with
  | [] => None
  | (k', v) :: r => if eqb k' k then Some v else assoc_get k r
  end.

Fixpoint assoc_set (k : K) (v : V) (d : list (K * V)) : list (K * V) :=
  match d with
  | [] => [(k, v)]
  | (k', v') :: r => if eqb k' k then (k, v) :: r else (k', v') :: assoc_set k v r
  end.

Definition assoc_del (k : K) (d : list (K * V)) : list (K * V) :=
  filter (fun kv => negb (eqb (fst kv) k)) d.

Definition assoc_mem (k : K) (d : list (K * V)) : bool :=
  match assoc_get k d with
  | Some _ => true
  | None => false
  end.
End Assoc.

(** ** classroom_db.py *)

Module classroom_db.

(** The "equipment" dictionary, as the forms fill it: names of devices
    mapped to True. *)
Definition equipment_dict : Type := list (string * bool).

Record classroom : Type := mk_classroom {
  name : string;
  location : string;
  capacity : Z;
  equipment : equipment_dict
}.

Definition classrooms_dict : Type := list (Z * classroom).

Inductive file_state : Type :=
| Missing
| Corrupt
| Document (classrooms : classrooms_dict) (next_id : Z).

Inductive write_outcome : Type :=
| Written
| IOFailed (remains : file_state).

(** The module globals and classrooms.json. *)
Record world : Type := mk_world {
  CLASSROOMS : classrooms_dict;
  _next_id : Z;
  file : file_state
}.

Definition _save_classrooms (o : write_outcome) (w : world) : world :=
  match o with
  | Written =>
      mk_world (CLASSROOMS w) (_next_id w) (Document (CLASSROOMS w) (_next_id w))
  | IOFailed remains => mk_world (CLASSROOMS w) (_next_id w) remains
  end.

(** [equipment or {}] *)
Definition or_empty (e : option equipment_dict) : equipment_dict :=
  match e with
  | Some (x :: l) => x :: l
  | Some [] | None => []
  end.

Definition create_classroom (o : write_outcome) (name location : string) (capacity : Z)
  (equipment : option equipment_dict) (w : world) : Z * world :=
  let classroom_id := _next_id w in
  let w1 :=
    mk_world
      (assoc_set Z.eqb classroom_id
         (mk_classroom name location capacity (or_empty equipment)) (CLASSROOMS w))
      (_next_id w + 1) (file w) in
  (classroom_id, _save_classrooms o w1).

Definition get_classroom (classroom_id : Z) (w : world) : option classroom :=
  assoc_get Z.eqb classroom_id (CLASSROOMS w).

(** [CLASSROOMS.copy()] *)
Definition get_all_classrooms (w : world) : classrooms_dict := CLASSROOMS w.

(** The four conditional assignments of [update_classroom]. *)
Definition with_fields (name location : option string) (capacity : option Z)
  (equipment : option equipment_dict) (c : classroom) : classroom :=
  let c := match name with
           | Some n => mk_classroom n (classroom_db.location c) (classroom_db.capacity c)
                         (classroom_db.equipment c)
           | None => c
           end in
  let c := match location with
           | Some l => mk_classroom (classroom_db.name c) l (classroom_db.capacity c)
                         (classroom_db.equipment c)
           | None => c
           end in
  let c := match capacity with
           | Some n => mk_classroom (classroom_db.name c) (classroom_db.location c) n
                         (classroom_db.equipment c)
           | None => c
           end in
  match equipment with
  | Some e => mk_classroom (classroom_db.name c) (classroom_db.location c)
                (classroom_db.capacity c) e
  | None => c
  end.

Definition update_classroom (o : write_outcome) (classroom_id : Z)
  (name location : option string) (capacity : option Z)
  (equipment : option equipment_dict) (w : world) : bool * world :=
  match assoc_get Z.eqb classroom_id (CLASSROOMS w) with
  | None => (false, w)
  | Some c =>
      let w1 :=
        mk_world
          (assoc_set Z.eqb classroom_id
             (with_fields name location capacity equipment c) (CLASSROOMS w))
          (_next_id w) (file w) in
      (true, _save_classrooms o w1)
  end.

Definition delete_classroom (o : write_outcome) (classroom_id : Z) (w : world)
  : bool * world :=
  if assoc_mem Z.eqb classroom_id (CLASSROOMS w) then
    let w1 :=
      mk_world (assoc_del Z.eqb classroom_id (CLASSROOMS w)) (_next_id w) (file w) in
    (true, _save_classrooms o w1)
  else (false, w).

(** The mutating calls, and a sequence of them. *)
Inductive op : Type :=
| Create (o : write_outcome) (name location : string) (capacity : Z)
         (equipment : option equipment_dict)
| Update (o : write_outcome) (classroom_id : Z) (name location : option string)
         (capacity : option Z) (equipment : option equipment_dict)
| Delete (o : write_outcome) (classroom_id : Z).

Definition step (c : op) (w : world) : world :=
  match c with
  | Create o n l cap e => snd (create_classroom o n l cap e w)
  | Update o i n l cap e => snd (update_classroom o i n l cap e w)
  | Delete o i => snd (delete_classroom o i w)
  end.

Definition run (cs : list op) (w : world) : world :=
  fold_left (fun w c => step c w) cs w.

(** The counter is above every id in the catalog. *)
Definition counter_above_ids (w : world) : Prop :=
  Forall (fun k => k < _next_id w) (map fst (CLASSROOMS w)).

End classroom_db.

(** ** user_db.py *)

Module user_db.

Inductive Role : Type := Student | Admin.

Definition Role_eqb (a b : Role) : bool :=
  match a, b with
  | Student, Student | Admin, Admin => true
  | _, _ => false
  end.

Record user : Type := mk_user {
  password : string;
  role : Role
}.

Definition users_dict : Type := list (string * user).

Inductive file_state : Type :=
| Missing
| Corrupt
| Document (users : users_dict).

Inductive write_outcome : Type :=
| Written
| IOFailed (remains : file_state).

(** The module global and users.json. *)
Record world : Type := mk_world {
  USERS : users_dict;
  file : file_state
}.

Definition _save_users (o : write_outcome) (w : world) : world :=
  match o with
  | Written => mk_world (USERS w) (Document (USERS w))
  | IOFailed remains => mk_world (USERS w) remains
  end.

Definition register_user (o : write_outcome) (user_id password : string) (role : Role)
  (w : world) : bool * world :=
  if assoc_mem String.eqb user_id (USERS w) then (false, w)
  else
    let w1 :=
      mk_world (assoc_set String.eqb user_id (mk_user password role) (USERS w)) (file w) in
    (true, _save_users o w1).

Definition get_user (user_id : string) (w : world) : option user :=
  assoc_get String.eqb user_id (USERS w).

(** [get_user_role]: a stored user is a non-empty dictionary, so [if user:]
    holds for every user found. *)
Definition get_user_role (user_id : string) (w : world) : option Role :=
  match get_user user_id w with
  | Some u => Some (role u)
  | None => None
  end.

(** A registration request, and a sequence of them. *)
Record registration : Type := mk_registration {
  reg_outcome : write_outcome;
  reg_user_id : string;
  reg_password : string;
  reg_role : Role
}.

Definition register (r : registration) (w : world) : world :=
  snd (register_user (reg_outcome r) (reg_user_id r) (reg_password r) (reg_role r) w).

Definition register_all (rs : list registration) (w : world) : world :=
  fold_left (fun w r => register r w) rs w.

(** The first request of a list for a user id. *)
Definition first_request (user_id : string) (rs : list registration) : option user :=
  match find (fun r => (reg_user_id r =? user_id)%string) rs with
  | Some r => Some (mk_user (reg_password r) (reg_role r))
  | None => None
  end.

End user_db.

(** Catalogs and user stores used in the examples. *)
Definition room_101 : classroom_db.classroom :=
  classroom_db.mk_classroom "101" "Main hall" 40 [("projector", true)].
Definition room_202 : classroom_db.classroom :=
  classroom_db.mk_classroom "202" "Annex" 12 [].
Definition two_rooms : classroom_db.world :=
  classroom_db.mk_world [(1, room_101); (2, room_202)] 3 classroom_db.Missing.
Definition room_calls : list classroom_db.op :=
  [classroom_db.Delete classroom_db.Written 2;
   classroom_db.Create classroom_db.Written "303" "Annex" 20 None;
   classroom_db.Update classroom_db.Written 1 None None (Some 45) None;
   classroom_db.Delete classroom_db.Written 2].
Definition one_user : user_db.world :=
  user_db.mk_world [("u1", user_db.mk_user "secret" user_db.Student)] user_db.Missing.
Definition three_requests : list user_db.registration :=
  [user_db.mk_registration user_db.Written "u2" "first" user_db.Admin;
   user_db.mk_registration user_db.Written "u1" "other" user_db.Admin;
   user_db.mk_registration user_db.Written "u2" "second" user_db.Student].

(** ** main.py *)

(** [list.sort(key=..., reverse=True)]: the list is reversed, sorted
    stably in ascending order and reversed again, so entries with equal
    keys keep their order. *)
Section Sort_by.
Context {A : Type} (key : A -> string * string).

Fixpoint insert_by (x : A) (l : list A) : list A :=
  match l with
  | [] => [x]
  | y :: l' => if key_ltb (key y) (key x) then y :: insert_by x l' else x :: l
  end.

Fixpoint sort_by (l : list A) : list A :=
  match l with
  | [] => []
  | x :: l' => insert_by x (sort_by l')
  end.

Definition sort_by_reverse (l : list A) : list A := rev (sort_by (rev l)).
End Sort_by.

Module main.

(** [request.session], a dictionary with the entries "user_id" and
    "role" or without them. *)
Record session : Type := mk_session {
  session_user_id : option string;
  session_role : option user_db.Role
}.

Definition no_session : session := mk_session None None.

(** The three stores of the process. *)
Record site : Type := mk_site {
  users : user_db.world;
  rooms : classroom_db.world;
  bookings : world
}.

(** The dictionary that [get_current_user] returns. *)
Record current_user : Type := mk_current_user {
  cu_user_id : string;
  cu_role : user_db.Role
}.

(** An entry of the "my reservations" page and one of the timeline page. *)
Record listed : Type := mk_listed {
  listed_id : Z;
  listed_reservation : reservation;
  classroom_name : string;
  classroom_location : string
}.

Record timeline_entry : Type := mk_timeline_entry {
  entry_id : Z;
  entry_reservation : reservation;
  user_name : string
}.

(** The values of a template context. *)
Inductive value : Type :=
| VNone
| VStr (s : string)
| VInt (z : Z)
| VRequest (s : session)
| VUser (u : current_user)
| VClassroom (c : classroom_db.classroom)
| VClassrooms (d : classroom_db.classrooms_dict)
| VReservations (l : list listed)
| VTimeline (l : list timeline_entry).

Inductive response : Type :=
| RedirectResponse (url : string) (status_code : Z)
| TemplateResponse (name : string) (context : list (string * value)).

(** How a handler ends: with a value, with HTTPException, or with another
    exception. *)
Inductive ending (A : Type) : Type :=
| Returns (a : A)
| HTTPException (status_code : Z) (detail : string)
| Fails (e : exn).
Arguments Returns {A} a.
Arguments HTTPException {A} status_code detail.
Arguments Fails {A} e.

Definition HTTP_302_FOUND : Z := 302.
Definition HTTP_303_SEE_OTHER : Z := 303.

Definition LOGIN_REQUIRED : string := "로그인이 필요합니다.".
Definition ADMIN_REQUIRED : string := "관리자 권한이 필요합니다.".
Definition BOTH_REQUIRED : string := "ID와 비밀번호를 모두 입력해야 합니다.".
Definition WRONG_LOGIN : string := "ID 또는 비밀번호가 올바르지 않습니다.".
Definition NO_CLASSROOM : string := "강의실을 찾을 수 없습니다.".
Definition UNKNOWN_CLASSROOM : string := "존재하지 않는 강의실입니다.".

(** f"'{user_id}'는 이미 사용 중인 ID입니다." *)
Definition id_in_use (user_id : string) : string :=
  ("'" ++ user_id ++ "'는 이미 사용 중인 ID입니다.")%string.

(** *** Helpers *)

Definition get_current_user (s : session) (st : site) : option current_user :=
  match session_user_id s with
  | None => None
  | Some user_id =>
      if (user_id =? "")%string then None
      else
        match user_db.get_user user_id (users st) with
        | Some user => Some (mk_current_user user_id (user_db.role user))
        | None => None
        end
  end.

Definition require_auth (s : session) (st : site) : ending current_user :=
  match get_current_user s st with
  | None => HTTPException 401 LOGIN_REQUIRED
  | Some user => Returns user
  end.

Definition require_admin (s : session) (st : site) : ending current_user :=
  match require_auth s st with
  | Returns user =>
      if negb (user_db.Role_eqb (cu_role user) user_db.Admin)
      then HTTPException 403 ADMIN_REQUIRED
      else Returns user
  | HTTPException status_code detail => HTTPException status_code detail
  | Fails e => Fails e
  end.

(** *** Registration and login *)

Definition get_register_form (s : session) (st : site) : response :=
  match get_current_user s st with
  | Some _ => RedirectResponse "/" HTTP_302_FOUND
  | None => TemplateResponse "register.html" [("request", VRequest s); ("error_message", VNone)]
  end.

Definition post_register (o : user_db.write_outcome) (s : session)
  (user_id password : string) (role : user_db.Role) (st : site) : response * site :=
  if (user_id =? "")%string || (password =? "")%string then
    (TemplateResponse "register.html"
       [("request", VRequest s); ("error_message", VStr BOTH_REQUIRED)], st)
  else
    let '(registered, users') := user_db.register_user o user_id password role (users st) in
    if registered then
      (RedirectResponse "/login" HTTP_303_SEE_OTHER,
       mk_site users' (rooms st) (bookings st))
    else
      (TemplateResponse "register.html"
         [("request", VRequest s); ("error_message", VStr (id_in_use user_id))],
       mk_site users' (rooms st) (bookings st)).

Definition get_login_form (s : session) (st : site) : response :=
  match get_current_user s st with
  | Some _ => RedirectResponse "/" HTTP_302_FOUND
  | None => TemplateResponse "login.html" [("request", VRequest s); ("error_message", VNone)]
  end.

Definition post_login (s : session) (user_id password : string) (st : site)
  : response * session :=
  match user_db.get_user user_id (users st) with
  | Some user =>
      if negb (user_db.password user =? password)%string then
        (TemplateResponse "login.html"
           [("request", VRequest s); ("error_message", VStr WRONG_LOGIN)], s)
      else
        (RedirectResponse "/" HTTP_303_SEE_OTHER,
         mk_session (Some user_id) (Some (user_db.role user)))
  | None =>
      (TemplateResponse "login.html"
         [("request", VRequest s); ("error_message", VStr WRONG_LOGIN)], s)
  end.

Definition logout (s : session) : response * session :=
  (RedirectResponse "/login" HTTP_302_FOUND, no_session).

Definition root (s : session) (st : site) : response :=
  match get_current_user s st with
  | None => RedirectResponse "/login" HTTP_302_FOUND
  | Some user => TemplateResponse "index.html" [("request", VRequest s); ("user", VUser user)]
  end.

(** *** Classrooms *)

Definition optional_user (u : option current_user) : value :=
  match u with
  | Some user => VUser user
  | None => VNone
  end.

Definition list_classrooms (s : session) (st : site) : ending response :=
  match require_auth s st with
  | Returns _ =>
      let classrooms := classroom_db.get_all_classrooms (rooms st) in
      Returns (TemplateResponse "classrooms.html"
                 [("request", VRequest s); ("classrooms", VClassrooms classrooms);
                  ("user", optional_user (get_current_user s st))])
  | HTTPException status_code detail => HTTPException status_code detail
  | Fails e => Fails e
  end.

Definition create_classroom_form (s : session) (st : site) : ending response :=
  match require_admin s st with
  | Returns _ =>
      Returns (TemplateResponse "classroom_form.html"
                 [("request", VRequest s); ("user", optional_user (get_current_user s st));
                  ("classroom", VNone); ("mode", VStr "create")])
  | HTTPException status_code detail => HTTPException status_code detail
  | Fails e => Fails e
  end.

(** The dictionary built from the two check boxes. *)
Definition equipment_of (projector whiteboard : bool) : classroom_db.equipment_dict :=
  ((if projector then [("projector", true)] else [])
   ++ (if whiteboard then [("whiteboard", true)] else []))%list.

Definition create_classroom_post (o : classroom_db.write_outcome) (s : session)
  (name location : string) (capacity : Z) (projector whiteboard : bool) (st : site)
  : ending response * site :=
  match require_admin s st with
  | Returns _ =>
      let equipment := equipment_of projector whiteboard in
      let '(classroom_id, rooms') :=
        classroom_db.create_classroom o name location capacity (Some equipment) (rooms st) in
      (Returns (RedirectResponse "/classrooms" HTTP_303_SEE_OTHER),
       mk_site (users st) rooms' (bookings st))
  | HTTPException status_code detail => (HTTPException status_code detail, st)
  | Fails e => (Fails e, st)
  end.

Definition edit_classroom_form (s : session) (classroom_id : Z) (st : site)
  : ending response :=
  match require_admin s st with
  | Returns _ =>
      match classroom_db.get_classroom classroom_id (rooms st) with
      | None => HTTPException 404 NO_CLASSROOM
      | Some classroom =>
          Returns (TemplateResponse "classroom_form.html"
                     [("request", VRequest s);
                      ("user", optional_user (get_current_user s st));
                      ("classroom", VClassroom classroom);
                      ("classroom_id", VInt classroom_id); ("mode", VStr "edit")])
      end
  | HTTPException status_code detail => HTTPException status_code detail
  | Fails e => Fails e
  end.

Definition edit_classroom_post (o : classroom_db.write_outcome) (s : session)
  (classroom_id : Z) (name location : string) (capacity : Z)
  (projector whiteboard : bool) (st : site) : ending response * site :=
  match require_admin s st with
  | Returns _ =>
      let equipment := equipment_of projector whiteboard in
      let '(updated, rooms') :=
        classroom_db.update_classroom o classroom_id (Some name) (Some location)
          (Some capacity) (Some equipment) (rooms st) in
      if negb updated then
        (HTTPException 404 NO_CLASSROOM, mk_site (users st) rooms' (bookings st))
      else
        (Returns (RedirectResponse "/classrooms" HTTP_303_SEE_OTHER),
         mk_site (users st) rooms' (bookings st))
  | HTTPException status_code detail => (HTTPException status_code detail, st)
  | Fails e => (Fails e, st)
  end.

Definition delete_classroom_post (o : classroom_db.write_outcome) (s : session)
  (classroom_id : Z) (st : site) : ending response * site :=
  match require_admin s st with
  | Returns _ =>
      let '(deleted, rooms') := classroom_db.delete_classroom o classroom_id (rooms st) in
      if negb deleted then
        (HTTPException 404 NO_CLASSROOM, mk_site (users st) rooms' (bookings st))
      else
        (Returns (RedirectResponse "/classrooms" HTTP_303_SEE_OTHER),
         mk_site (users st) rooms' (bookings st))
  | HTTPException status_code detail => (HTTPException status_code detail, st)
  | Fails e => (Fails e, st)
  end.

(** *** Reservations *)

Definition optional_int (z : option Z) : value :=
  match z with
  | Some n => VInt n
  | None => VNone
  end.

Definition create_reservation_form (s : session) (classroom_id : option Z) (st : site)
  : ending response :=
  match require_auth s st with
  | Returns user =>
      let classrooms := classroom_db.get_all_classrooms (rooms st) in
      Returns (TemplateResponse "reservation_form.html"
                 [("request", VRequest s); ("user", VUser user);
                  ("classrooms", VClassrooms classrooms); ("error_message", VNone);
                  ("selected_classroom_id", optional_int classroom_id)])
  | HTTPException status_code detail => HTTPException status_code detail
  | Fails e => Fails e
  end.

Definition create_reservation_post (e : env) (s : session) (classroom_id : Z)
  (date start_time end_time : string) (st : site) : ending response * site :=
  match require_auth s st with
  | Returns user =>
      let classrooms := classroom_db.get_all_classrooms (rooms st) in
      if negb (assoc_mem Z.eqb classroom_id classrooms) then
        (Returns (TemplateResponse "reservation_form.html"
                    [("request", VRequest s); ("user", VUser user);
                     ("classrooms", VClassrooms classrooms);
                     ("error_message", VStr UNKNOWN_CLASSROOM)]), st)
      else
        match create_reservation e (cu_user_id user) classroom_id date start_time end_time
                (bookings st) with
        | (Ok (success, message), bookings') =>
            if success then
              (Returns (RedirectResponse "/classrooms" HTTP_303_SEE_OTHER),
               mk_site (users st) (rooms st) bookings')
            else
              (Returns (TemplateResponse "reservation_form.html"
                          [("request", VRequest s); ("user", VUser user);
                           ("classrooms", VClassrooms classrooms);
                           ("error_message", VStr message)]),
               mk_site (users st) (rooms st) bookings')
        | (Raise ex, bookings') => (Fails ex, mk_site (users st) (rooms st) bookings')
        end
  | HTTPException status_code detail => (HTTPException status_code detail, st)
  | Fails e => (Fails e, st)
  end.

(** The loop that adds the classroom's name and location to each entry. *)
Fixpoint with_classrooms (reservations : list (Z * reservation)) (st : site)
  : result (list listed) :=
  match reservations with
  | [] => Ok []
  | (res_id, r) :: rest =>
      let classroom_id := classroom_id r in
      classroom_name <-
        match classroom_db.get_classroom classroom_id (rooms st) with
        | Some classroom => Ok (classroom_db.name classroom)
        | None => number <- py_str classroom_id ;; Ok ("강의실 " ++ number)%string
        end ;;
      let classroom_location :=
        match classroom_db.get_classroom classroom_id (rooms st) with
        | Some classroom => classroom_db.location classroom
        | None => ""
        end in
      others <- with_classrooms rest st ;;
      Ok (mk_listed res_id r classroom_name classroom_location :: others)
  end.

Definition listed_key (l : listed) : string * string :=
  (date (listed_reservation l), start_time (listed_reservation l)).

(** The listing shared by [list_my_reservations] and the failing branch of
    [cancel_reservation_post]. *)
Definition my_listing (user : current_user) (st : site) : result (list listed) :=
  reservations <-
    with_classrooms (get_user_reservations (cu_user_id user) (bookings st)) st ;;
  Ok (sort_by_reverse listed_key reservations).

Definition list_my_reservations (s : session) (st : site) : ending response :=
  match require_auth s st with
  | Returns user =>
      match my_listing user st with
      | Ok reservations =>
          Returns (TemplateResponse "my_reservations.html"
                     [("request", VRequest s); ("user", VUser user);
                      ("reservations", VReservations reservations)])
      | Raise ex => Fails ex
      end
  | HTTPException status_code detail => HTTPException status_code detail
  | Fails e => Fails e
  end.

(** [today] is what [datetime.now().strftime("%Y-%m-%d")] gives. *)
Definition classroom_reservations_timeline (today : string) (s : session)
  (classroom_id : Z) (date : option string) (st : site) : ending response :=
  match require_auth s st with
  | Returns user =>
      match classroom_db.get_classroom classroom_id (rooms st) with
      | None => HTTPException 404 NO_CLASSROOM
      | Some classroom =>
          let date := if truthy date
                      then match date with Some d => d | None => today end
                      else today in
          let reservations :=
            get_classroom_reservations classroom_id (Some date) (bookings st) in
          let reservations :=
            map (fun kv => mk_timeline_entry (fst kv) (snd kv) (user_id (snd kv)))
                reservations in
          Returns (TemplateResponse "classroom_reservations.html"
                     [("request", VRequest s); ("user", VUser user);
                      ("classroom", VClassroom classroom);
                      ("classroom_id", VInt classroom_id);
                      ("reservations", VTimeline reservations);
                      ("selected_date", VStr date)])
      end
  | HTTPException status_code detail => HTTPException status_code detail
  | Fails e => Fails e
  end.

Definition cancel_reservation_post (o : write_outcome) (s : session)
  (reservation_id : Z) (st : site) : ending response * site :=
  match require_auth s st with
  | Returns user =>
      let '((success, message), bookings') :=
        cancel_reservation o reservation_id (cu_user_id user) (bookings st) in
      let st' := mk_site (users st) (rooms st) bookings' in
      if success then
        (Returns (RedirectResponse "/reservations" HTTP_303_SEE_OTHER), st')
      else
        match my_listing user st' with
        | Ok reservations =>
            (Returns (TemplateResponse "my_reservations.html"
                        [("request", VRequest s); ("user", VUser user);
                         ("reservations", VReservations reservations);
                         ("error_message", VStr message)]), st')
        | Raise ex => (Fails ex, st')
        end
  | HTTPException status_code detail => (HTTPException status_code detail, st)
  | Fails e => (Fails e, st)
  end.

End main.

(** A site and sessions used in the examples. *)
Definition campus_users : user_db.world :=
  user_db.mk_world
    [("u1", user_db.mk_user "secret" user_db.Student);
     ("root", user_db.mk_user "pw" user_db.Admin)]
    user_db.Missing.
Definition campus : main.site := main.mk_site campus_users two_rooms two_bookings.
Definition as_u1 : main.session := main.mk_session (Some "u1") (Some user_db.Student).
Definition as_root : main.session := main.mk_session (Some "root") (Some user_db.Admin).
Definition forged : main.session := main.mk_session (Some "u1") (Some user_db.Admin).
Definition booked_gone : reservation :=
  mk_reservation "u1" 7 "2099-01-02" "09:00" "10:00".
Definition campus_later : main.site :=
  main.mk_site campus_users two_rooms
    (mk_world [(1, booked_14); (4, booked_15); (5, booked_gone)] 6 Missing).

(** ** The slot check and the overlap check *)

(** C5: [_is_valid_time_slot] holds exactly when both minutes are 0 and the
    end hour is the start hour plus one modulo 24; so every slot H:00 to
    (H+1):00 with H from 0 to 22 is valid, a non-zero minute makes a slot
    invalid, and 23:00 to 00:00 is valid. *)
Theorem is_valid_time_slot_spec :
  (forall s e : pytime,
      _is_valid_time_slot s e = true <->
      minute s = 0 /\ minute e = 0 /\ hour e = (hour s + 1) mod 24)
  /\ (forall H : Z, 0 <= H <= 22 ->
        _is_valid_time_slot (mk_time H 0) (mk_time (H + 1) 0) = true)
  /\ (forall s e : pytime, minute s <> 0 \/ minute e <> 0 ->
        _is_valid_time_slot s e = false)
  /\ _is_valid_time_slot (mk_time 23 0) (mk_time 0 0) = true.
Proof.
  assert (spec : forall s e : pytime,
             _is_valid_time_slot s e = true <->
             minute s = 0 /\ minute e = 0 /\ hour e = (hour s + 1) mod 24).
  { intros [sh sm] [eh em]; unfold _is_valid_time_slot; simpl.
    destruct (Z.eqb_spec sm 0) as [-> | ns]; simpl.
    - destruct (Z.eqb_spec em 0) as [-> | ne]; simpl.
      + rewrite Z.eqb_eq. tauto.
      + split; [discriminate | tauto].
    - split; [discriminate | tauto]. }
  split; [exact spec | split; [| split]].
  - intros H range. apply spec; simpl.
    rewrite Z.mod_small by lia. auto.
  - intros s e bad. destruct (_is_valid_time_slot s e) eqn:v; [| reflexivity].
    apply spec in v. lia.
  - reflexivity.
Qed.

(** The slot 09:00 to 10:00 is valid, 09:30 to 10:30 is not. *)
Lemma is_valid_time_slot_spec_witness :
  _is_valid_time_slot (mk_time 9 0) (mk_time (9 + 1) 0) = true
  /\ _is_valid_time_slot (mk_time 9 30) (mk_time 10 30) = false.
Proof.
  destruct is_valid_time_slot_spec as (_ & hours & minutes & _).
  split.
  - apply (hours 9). lia.
  - apply (minutes (mk_time 9 30) (mk_time 10 30)). left. simpl. lia.
Defined.

(** C6: [_is_time_overlap] holds exactly when, in minutes since midnight,
    start1 < end2 and start2 < end1; 09:00-10:00 against 10:00-11:00 do
    not overlap, 09:00-10:00 against 09:30-10:30 do. *)
Theorem is_time_overlap_spec :
  (forall start1 end1 start2 end2 : pytime,
      _is_time_overlap start1 end1 start2 end2 = true <->
      hour start1 * 60 + minute start1 < hour end2 * 60 + minute end2
      /\ hour start2 * 60 + minute start2 < hour end1 * 60 + minute end1)
  /\ _is_time_overlap (mk_time 9 0) (mk_time 10 0) (mk_time 10 0) (mk_time 11 0) = false
  /\ _is_time_overlap (mk_time 9 0) (mk_time 10 0) (mk_time 9 30) (mk_time 10 30) = true.
Proof.
  split; [| split; reflexivity].
  intros start1 end1 start2 end2. unfold _is_time_overlap, time_to_minutes.
  rewrite andb_true_iff, !Z.ltb_lt. tauto.
Qed.

(** ** The dictionary *)

Lemma dict_get_set_same k v d : dict_get k (dict_set k v d) = Some v.
Proof.
  induction d as [| [k' v'] d IH]; simpl.
  - now rewrite Z.eqb_refl.
  - destruct (Z.eqb_spec k' k) as [-> | ne]; simpl.
    + now rewrite Z.eqb_refl.
    + destruct (Z.eqb_spec k' k); [contradiction | exact IH].
Qed.

Lemma dict_get_set_other k j v d :
  j <> k -> dict_get j (dict_set k v d) = dict_get j d.
Proof.
  intros ne. induction d as [| [k' v'] d IH]; simpl.
  - destruct (Z.eqb_spec k j); [congruence | reflexivity].
  - destruct (Z.eqb_spec k' k) as [-> | nk]; simpl.
    + destruct (Z.eqb_spec k j); [congruence | reflexivity].
    + now rewrite IH.
Qed.

Lemma in_dict_set k v d j r :
  In (j, r) (dict_set k v d) -> (j = k /\ r = v) \/ In (j, r) d.
Proof.
  induction d as [| [k' v'] d IH]; simpl.
  - intros [eq | []]. left. now inversion eq.
  - destruct (Z.eqb_spec k' k) as [-> | nk]; simpl.
    + intros [eq | later]; [left; now inversion eq | right; now right].
    + intros [eq | later]; [right; now left |].
      destruct (IH later) as [new | old]; [now left | right; now right].
Qed.

Lemma dict_set_in k v d : In (k, v) (dict_set k v d).
Proof.
  induction d as [| [k' v'] d IH]; simpl.
  - now left.
  - destruct (Z.eqb_spec k' k); simpl; [now left | now right].
Qed.

Lemma in_dict_del k d j r :
  In (j, r) (dict_del k d) <-> In (j, r) d /\ j <> k.
Proof.
  unfold dict_del. rewrite filter_In. simpl.
  rewrite negb_true_iff, Z.eqb_neq. tauto.
Qed.

Lemma dict_get_del_same k d : dict_get k (dict_del k d) = None.
Proof.
  induction d as [| [k' v'] d IH]; simpl; [reflexivity |].
  destruct (Z.eqb_spec k' k) as [-> | ne]; simpl; [exact IH |].
  destruct (Z.eqb_spec k' k); [contradiction | exact IH].
Qed.

Lemma dict_get_del_other k j d :
  j <> k -> dict_get j (dict_del k d) = dict_get j d.
Proof.
  intros ne. induction d as [| [k' v'] d IH]; simpl; [reflexivity |].
  destruct (Z.eqb_spec k' k) as [-> | nk]; simpl.
  - destruct (Z.eqb_spec k j); [congruence | exact IH].
  - now rewrite IH.
Qed.

Lemma in_keys_set k v d j :
  In j (keys (dict_set k v d)) -> j = k \/ In j (keys d).
Proof.
  unfold keys. rewrite !in_map_iff. intros [[j' r] [<- mem]]. simpl.
  destruct (in_dict_set _ _ _ _ _ mem) as [[-> _] | old]; [now left |].
  right. now exists (j', r).
Qed.

Lemma in_keys_del k d j : In j (keys (dict_del k d)) -> In j (keys d).
Proof.
  unfold keys. rewrite !in_map_iff. intros [[j' r] [<- mem]].
  apply in_dict_del in mem. exists (j', r). tauto.
Qed.

(** ** The shape of every call *)

(** A call of [create_reservation] either leaves the world as it was and
    does not report success, or passes every check and moves to [created]. *)
Lemma create_reservation_cases e user cid d s t w :
  (snd (create_reservation e user cid d s t w) = w
   /\ forall msg, fst (create_reservation e user cid d s t w) <> Ok (true, msg))
  \/ (exists dobj sobj tobj,
        parse_inputs d s t = Ok (dobj, sobj, tobj)
        /\ _is_past_datetime (now e) dobj sobj = false
        /\ _is_valid_time_slot sobj tobj = true
        /\ scan_conflicts cid d sobj tobj (values (RESERVATIONS w)) = Ok false
        /\ create_reservation e user cid d s t w
           = (Ok (true, MSG_CREATED), created e user cid d s t w)).
Proof.
  unfold create_reservation.
  destruct (parse_inputs d s t) as [[[dobj sobj] tobj] | [msg |]].
  2, 3: left; split; [reflexivity | discriminate].
  destruct (_is_past_datetime (now e) dobj sobj) eqn:past.
  { left; split; [reflexivity | discriminate]. }
  destruct (_is_valid_time_slot sobj tobj) eqn:slot; simpl.
  2: { left; split; [reflexivity | discriminate]. }
  destruct (scan_conflicts cid d sobj tobj (values (RESERVATIONS w)))
    as [[|] | ex] eqn:scan.
  1, 3: left; split; [reflexivity | discriminate].
  right. exists dobj, sobj, tobj. repeat split; auto.
Qed.

Lemma create_reservation_success_inv e user cid d s t w msg w' :
  create_reservation e user cid d s t w = (Ok (true, msg), w') ->
  msg = MSG_CREATED /\ w' = created e user cid d s t w
  /\ exists dobj sobj tobj,
       parse_inputs d s t = Ok (dobj, sobj, tobj)
       /\ _is_past_datetime (now e) dobj sobj = false
       /\ _is_valid_time_slot sobj tobj = true
       /\ scan_conflicts cid d sobj tobj (values (RESERVATIONS w)) = Ok false.
Proof.
  intros call.
  destruct (create_reservation_cases e user cid d s t w)
    as [[_ never] | (dobj & sobj & tobj & p & past & slot & scan & eq)].
  - exfalso. apply (never msg). now rewrite call.
  - rewrite eq in call. inversion call; subst.
    split; [reflexivity | split; [reflexivity |]].
    now exists dobj, sobj, tobj.
Qed.

Lemma save_reservations_memory o w :
  RESERVATIONS (_save_reservations o w) = RESERVATIONS w
  /\ _next_id (_save_reservations o w) = _next_id w.
Proof. destruct o; simpl; auto. Qed.

Lemma created_memory e user cid d s t w :
  RESERVATIONS (created e user cid d s t w)
  = dict_set (_next_id w) (mk_reservation user cid d s t) (RESERVATIONS w)
  /\ _next_id (created e user cid d s t w) = _next_id w + 1.
Proof. unfold created. destruct (io e); simpl; auto. Qed.

(** What one mutating call does to the dictionary and the counter. *)
Lemma step_cases c w :
  step c w = w
  \/ (exists e user cid d s t,
        c = Create e user cid d s t
        /\ step c w = created e user cid d s t w
        /\ fst (create_reservation e user cid d s t w) = Ok (true, MSG_CREATED))
  \/ (exists i, RESERVATIONS (step c w) = dict_del i (RESERVATIONS w)
                /\ _next_id (step c w) = _next_id w).
Proof.
  destruct c as [e user cid d s t | o i user | o i]; simpl.
  - destruct (create_reservation_cases e user cid d s t w)
      as [[same _] | (dobj & sobj & tobj & _ & _ & _ & _ & eq)].
    + now left.
    + right; left. exists e, user, cid, d, s, t. rewrite eq. auto.
  - unfold cancel_reservation.
    destruct (dict_get i (RESERVATIONS w)) as [r |]; [| now left].
    destruct (negb (user_id r =? user)%string); [now left |].
    right; right. exists i. destruct o; simpl; auto.
  - unfold delete_reservation.
    destruct (dict_mem i (RESERVATIONS w)); [| now left].
    right; right. exists i. destruct o; simpl; auto.
Qed.

(** ** Cancellation *)


(** ** Rejections *)

(** C10: a call of [create_reservation] or [cancel_reservation] that
    returns a failure leaves the dictionary, the counter and the file as
    they were. *)
Theorem rejection_is_atomic :
  (forall e user cid d s t w msg w',
      create_reservation e user cid d s t w = (Ok (false, msg), w') -> w' = w)
  /\ (forall o i user w msg w',
        cancel_reservation o i user w = ((false, msg), w') -> w' = w).
Proof.
  split.
  - intros e user cid d s t w msg w' call.
    destruct (create_reservation_cases e user cid d s t w)
      as [[same _] | (_ & _ & _ & _ & _ & _ & _ & eq)].
    + rewrite call in same. now simpl in same.
    + rewrite eq in call. discriminate.
  - intros o i user w msg w'. unfold cancel_reservation.
    destruct (dict_get i (RESERVATIONS w)) as [r |]; [| now inversion 1].
    destruct (negb (user_id r =? user)%string); now inversion 1.
Qed.

(** ** The id counter *)

Lemma step_counter_mono c w : _next_id w <= _next_id (step c w).
Proof.
  destruct (step_cases c w)
    as [-> | [(e & user & cid & d & s & t & _ & -> & _) | (i & _ & ->)]];
    try lia.
  destruct (created_memory e user cid d s t w) as [_ ->]. lia.
Qed.

Lemma run_counter_mono cs w : _next_id w <= _next_id (run cs w).
Proof.
  revert w. induction cs as [| c cs IH]; intros w; simpl; [lia |].
  specialize (IH (step c w)). pose proof (step_counter_mono c w). lia.
Qed.

Lemma step_counter c w :
  counter_above_ids w -> counter_above_ids (step c w).
Proof.
  unfold counter_above_ids. rewrite !Forall_forall. intros inv.
  destruct (step_cases c w)
    as [-> | [(e & user & cid & d & s & t & _ & -> & _) | (i & dict & ctr)]].
  - exact inv.
  - destruct (created_memory e user cid d s t w) as [-> ->].
    intros k mem. destruct (in_keys_set _ _ _ _ mem) as [-> | old]; [lia |].
    specialize (inv k old). lia.
  - rewrite dict, ctr.
    intros k mem. apply inv. eapply in_keys_del, mem.
Qed.

Lemma run_counter cs w :
  counter_above_ids w -> counter_above_ids (run cs w).
Proof.
  revert w. induction cs as [| c cs IH]; intros w inv; simpl; auto using step_counter.
Qed.

(** C8: where the counter is above every id of the store, each of create,
    cancel and delete keeps it so and does not lower it; a successful
    create stores the record under the old counter value and raises the
    counter; hence after any further calls the counter, which is the next
    id to be given out, is above every id that was ever in the store. *)
Theorem ids_are_never_reused :
  (forall c w, counter_above_ids w ->
     counter_above_ids (step c w) /\ _next_id w <= _next_id (step c w))
  /\ (forall e user cid d s t w msg w',
        create_reservation e user cid d s t w = (Ok (true, msg), w') ->
        get_reservation (_next_id w) w' = Some (mk_reservation user cid d s t)
        /\ _next_id w' = _next_id w + 1
        /\ forall cs, _next_id w < _next_id (run cs w'))
  /\ (forall cs w i, counter_above_ids w -> In i (keys (RESERVATIONS w)) ->
        counter_above_ids (run cs w) /\ i < _next_id (run cs w)).
Proof.
  split; [| split].
  - intros c w inv. split; [now apply step_counter | apply step_counter_mono].
  - intros e user cid d s t w msg w' call.
    apply create_reservation_success_inv in call. destruct call as (_ & -> & _).
    destruct (created_memory e user cid d s t w) as [dict ctr].
    unfold get_reservation. rewrite dict.
    split; [apply dict_get_set_same | split; [exact ctr |]].
    intros cs. pose proof (run_counter_mono cs (created e user cid d s t w)). lia.
  - intros cs w i inv mem.
    split; [now apply run_counter |].
    pose proof (run_counter_mono cs w).
    unfold counter_above_ids in inv. rewrite Forall_forall in inv.
    specialize (inv i mem). lia.
Qed.

(** ** Double booking *)

Lemma is_time_overlap_sym a b c d :
  _is_time_overlap a b c d = _is_time_overlap c d a b.
Proof. unfold _is_time_overlap. apply andb_comm. Qed.

(** Two intervals with a minute in common overlap. *)
Lemma common_minute_overlap s1 e1 s2 e2 m :
  time_to_minutes s1 <= m < time_to_minutes e1 ->
  time_to_minutes s2 <= m < time_to_minutes e2 ->
  _is_time_overlap s1 e1 s2 e2 = true.
Proof.
  intros in1 in2. unfold _is_time_overlap.
  apply andb_true_iff. split; apply Z.ltb_lt; lia.
Qed.

Lemma overlapping_sym r1 r2 : overlapping r1 r2 = overlapping r2 r1.
Proof.
  unfold overlapping.
  destruct (stored_interval r1) as [[s1 e1] |], (stored_interval r2) as [[s2 e2] |];
    auto using is_time_overlap_sym.
Qed.

Lemma clash_sym r1 r2 : clash r1 r2 = clash r2 r1.
Proof.
  unfold clash.
  now rewrite Z.eqb_sym, String.eqb_sym, overlapping_sym.
Qed.

Lemma parse_inputs_ok d s t dobj sobj tobj :
  parse_inputs d s t = Ok (dobj, sobj, tobj) ->
  _parse_date d = Ok dobj /\ _parse_time s = Ok sobj /\ _parse_time t = Ok tobj.
Proof.
  unfold parse_inputs, bind.
  destruct (_parse_date d); [| discriminate].
  destruct (_parse_time s); [| discriminate].
  destruct (_parse_time t); [| discriminate].
  now inversion 1.
Qed.

(** A scan that runs to the end has compared the candidate with every
    record of the classroom and the date, and found no overlap. *)
Lemma scan_conflicts_false cid d sobj tobj vals :
  scan_conflicts cid d sobj tobj vals = Ok false ->
  forall r, In r vals -> classroom_id r = cid -> date r = d ->
    exists es ee,
      _parse_time (start_time r) = Ok es /\ _parse_time (end_time r) = Ok ee
      /\ _is_time_overlap sobj tobj es ee = false.
Proof.
  induction vals as [| r0 vals IH]; simpl; [intros _ r [] |].
  intros scan r [-> | later] same_room same_date.
  - rewrite same_room, same_date, Z.eqb_refl, String.eqb_refl in scan.
    simpl in scan. unfold bind in scan.
    destruct (_parse_time (start_time r)) as [es |]; [| discriminate].
    destruct (_parse_time (end_time r)) as [ee |]; [| discriminate].
    exists es, ee.
    destruct (_is_time_overlap sobj tobj es ee); [discriminate | auto].
  - apply IH; auto.
    destruct ((classroom_id r0 =? cid) && (date r0 =? d)%string); [| exact scan].
    unfold bind in scan.
    destruct (_parse_time (start_time r0)); [| discriminate].
    destruct (_parse_time (end_time r0)); [| discriminate].
    destruct (_is_time_overlap _ _ _ _); [discriminate | exact scan].
Qed.

Lemma accepted_record_clashes_with_none cid d s t sobj tobj user vals :
  _parse_time s = Ok sobj -> _parse_time t = Ok tobj ->
  scan_conflicts cid d sobj tobj vals = Ok false ->
  forall r, In r vals -> clash (mk_reservation user cid d s t) r = false.
Proof.
  intros ps pt scan r mem. unfold clash; simpl.
  destruct (Z.eqb_spec cid (classroom_id r)) as [room |]; [| reflexivity].
  destruct (String.eqb_spec d (date r)) as [day |]; [| reflexivity].
  destruct (scan_conflicts_false _ _ _ _ _ scan r mem (eq_sym room) (eq_sym day))
    as (es & ee & pes & pee & free).
  unfold overlapping, stored_interval; simpl.
  now rewrite ps, pt, pes, pee.
Qed.

Section Booking_invariant.
Variable bad : reservation -> reservation -> Prop.
Hypothesis bad_sym : forall r1 r2, bad r1 r2 -> bad r2 r1.
Hypothesis bad_clash : forall r1 r2, bad r1 r2 -> clash r1 r2 = true.

Lemma step_free_of c w : free_of bad w -> free_of bad (step c w).
Proof.
  intros inv.
  destruct (step_cases c w)
    as [-> | [(e & user & cid & d & s & t & -> & -> & ok) | (k & dict & _)]].
  - exact inv.
  - simpl in ok.
    destruct (create_reservation e user cid d s t w) as [res w'] eqn:call.
    simpl in ok; subst res.
    apply create_reservation_success_inv in call.
    destruct call as (_ & _ & dobj & sobj & tobj & parsed & _ & _ & scan).
    apply parse_inputs_ok in parsed. destruct parsed as (_ & ps & pt).
    pose proof (accepted_record_clashes_with_none _ _ _ _ _ _ user _ ps pt scan)
      as free.
    unfold free_of.
    destruct (created_memory e user cid d s t w) as [-> _].
    intros i j r1 r2 m1 m2 ne is_bad.
    destruct (in_dict_set _ _ _ _ _ m1) as [[-> ->] | old1],
             (in_dict_set _ _ _ _ _ m2) as [[-> ->] | old2].
    + contradiction.
    + apply bad_clash in is_bad. rewrite free in is_bad; [discriminate |].
      unfold values. now apply (in_map snd _ (j, r2)).
    + apply bad_sym, bad_clash in is_bad. rewrite free in is_bad; [discriminate |].
      unfold values. now apply (in_map snd _ (i, r1)).
    + now apply (inv i j r1 r2).
  - unfold free_of. rewrite dict.
    intros i j r1 r2 m1 m2 ne.
    apply in_dict_del in m1, m2. now apply (inv i j).
Qed.

Lemma run_free_of cs w : free_of bad w -> free_of bad (run cs w).
Proof.
  revert w. induction cs as [| c cs IH]; intros w inv; simpl.
  - exact inv.
  - apply IH. now apply step_free_of.
Qed.
End Booking_invariant.

Lemma no_double_booking_free_of w :
  no_double_booking w <-> free_of (fun r1 r2 => clash r1 r2 = true) w.
Proof.
  unfold no_double_booking, free_of.
  split; intros inv i j r1 r2 m1 m2 ne.
  - rewrite (inv i j r1 r2 m1 m2 ne). discriminate.
  - apply not_true_is_false. now apply (inv i j).
Qed.

Lemma crowded_sym r1 r2 : crowded r1 r2 -> crowded r2 r1.
Proof.
  intros (room & day & s1 & e1 & s2 & e2 & m & iv1 & iv2 & in1 & in2).
  repeat split; auto. now exists s2, e2, s1, e1, m.
Qed.

Lemma crowded_clash r1 r2 : crowded r1 r2 -> clash r1 r2 = true.
Proof.
  intros (room & day & s1 & e1 & s2 & e2 & m & iv1 & iv2 & in1 & in2).
  unfold clash, overlapping.
  rewrite room, day, Z.eqb_refl, String.eqb_refl, iv1, iv2. simpl.
  now apply (common_minute_overlap _ _ _ _ m).
Qed.

Lemma no_double_bookingb_sound w :
  no_double_bookingb w = true -> no_double_booking w.
Proof.
  unfold no_double_bookingb, no_double_booking.
  rewrite forallb_forall. intros all i j r1 r2 m1 m2 ne.
  specialize (all _ m1). rewrite forallb_forall in all.
  specialize (all _ m2). simpl in all.
  apply orb_true_iff in all. destruct all as [same | free].
  - apply Z.eqb_eq in same. contradiction.
  - now apply negb_true_iff in free.
Qed.

Lemma no_double_booking_no_common_minute w :
  no_double_booking w -> no_common_minute w.
Proof.
  intros inv i j r1 r2 m1 m2 ne busy.
  apply crowded_clash in busy. rewrite (inv i j r1 r2 m1 m2 ne) in busy. discriminate.
Qed.


(** ** A successful creation *)

Lemma parse_inputs_2099 :
  parse_inputs "2099-01-01" "14:00" "15:00"
  = Ok (mk_date 2099 1 1, mk_time 14 0, mk_time 15 0).
Proof. vm_compute. reflexivity. Qed.




(** ** The order of the checks *)

Lemma parse_date_error d e :
  _parse_date d = Raise e -> e = ValueError (BAD_DATE_FORMAT ++ d).
Proof.
  unfold _parse_date.
  assert (no_overflow : strptime_date d <> Raise OverflowError).
  { unfold strptime_date.
    destruct (match_year d) as [[y [| c s1]] |]; try discriminate.
    destruct (Ascii.eqb_spec c "-") as [-> | other].
    2: { destruct c as [[] [] [] [] [] [] [] []]; try discriminate.
         now contradiction other. }
    destruct (match_month s1) as [[m [| c s2]] |]; try discriminate.
    destruct (Ascii.eqb_spec c "-") as [-> | other].
    2: { destruct c as [[] [] [] [] [] [] [] []]; try discriminate.
         now contradiction other. }
    destruct (match_day s2) as [[dd [| c s3]] |]; try discriminate.
    destruct (y <? 1); [discriminate |].
    destruct (days_in_month y m <? dd); discriminate. }
  destruct (strptime_date d) as [dobj | [m |]]; try discriminate.
  - now inversion 1.
  - contradiction.
Qed.

Lemma parse_time_value_error s m :
  _parse_time s = Raise (ValueError m) -> m = (BAD_TIME_FORMAT ++ s)%string.
Proof.
  unfold _parse_time.
  destruct (match split_colon s with
            | [a; b] => h <- py_int a;; m0 <- py_int b;; time_new h m0
            | _ => Raise (ValueError "wrong number of values to unpack")
            end) as [t | [m' |]]; try discriminate.
  now inversion 1.
Qed.

(** A scan of a store whose time strings parse meets the first record of
    the classroom and the date that overlaps the candidate. *)
Lemma scan_conflicts_true cid d sobj tobj vals :
  Forall (fun r => stored_interval r <> None) vals ->
  (exists r es ee,
      In r vals /\ classroom_id r = cid /\ date r = d
      /\ stored_interval r = Some (es, ee)
      /\ _is_time_overlap sobj tobj es ee = true) ->
  scan_conflicts cid d sobj tobj vals = Ok true.
Proof.
  induction 1 as [| r0 vals parses _ IH]; intros (r & es & ee & mem & room & day & iv & ov).
  - destruct mem.
  - simpl. unfold stored_interval in parses, iv. unfold bind.
    destruct mem as [-> | later].
    + rewrite room, day, Z.eqb_refl, String.eqb_refl. simpl.
      destruct (_parse_time (start_time r)); [| discriminate].
      destruct (_parse_time (end_time r)); [| discriminate].
      inversion iv; subst. now rewrite ov.
    + assert (rest : scan_conflicts cid d sobj tobj vals = Ok true).
      { apply IH. exists r, es, ee. unfold stored_interval. auto. }
      destruct ((classroom_id r0 =? cid) && (date r0 =? d)%string); [| exact rest].
      destruct (_parse_time (start_time r0)); [| contradiction].
      destruct (_parse_time (end_time r0)); [| contradiction].
      now destruct (_is_time_overlap sobj tobj a a0).
Qed.

(** The checks of [create_reservation] in their order, for every argument
    on which a parser does not raise OverflowError: an invalid date, start
    or end string is reported with the string in the message, then a past
    start, then a slot of the wrong shape, then a conflict; a request that
    parses and lies in the past is answered with the past-time message
    whatever the slot and the store are. *)
Theorem create_reservation_validation_order e user cid d s t w :
  let call := create_reservation e user cid d s t w in
  (forall ex, _parse_date d = Raise ex ->
     call = (Ok (false, BAD_DATE_FORMAT ++ d)%string, w))
  /\ (forall dobj, _parse_date d = Ok dobj ->
      (forall m, _parse_time s = Raise (ValueError m) ->
         call = (Ok (false, BAD_TIME_FORMAT ++ s)%string, w))
      /\ (forall sobj, _parse_time s = Ok sobj ->
          (forall m, _parse_time t = Raise (ValueError m) ->
             call = (Ok (false, BAD_TIME_FORMAT ++ t)%string, w))
          /\ (forall tobj, _parse_time t = Ok tobj ->
              (_is_past_datetime (now e) dobj sobj = true ->
                 call = (Ok (false, MSG_PAST), w))
              /\ (_is_past_datetime (now e) dobj sobj = false ->
                  (_is_valid_time_slot sobj tobj = false ->
                     call = (Ok (false, MSG_SLOT), w))
                  /\ (_is_valid_time_slot sobj tobj = true ->
                      stored_times_parse w ->
                      (exists r es ee,
                          In r (values (RESERVATIONS w))
                          /\ classroom_id r = cid /\ date r = d
                          /\ stored_interval r = Some (es, ee)
                          /\ _is_time_overlap sobj tobj es ee = true) ->
                      call = (Ok (false, MSG_CONFLICT), w)))))).
Proof.
  unfold create_reservation, parse_inputs, bind. split.
  - intros ex bad. rewrite bad. now rewrite (parse_date_error _ _ bad).
  - intros dobj -> . split.
    + intros m bad. rewrite bad. now rewrite (parse_time_value_error _ _ bad).
    + intros sobj ->. split.
      * intros m bad. rewrite bad. now rewrite (parse_time_value_error _ _ bad).
      * intros tobj ->. split; [now intros -> |].
        intros ->. split; [now intros -> |].
        intros -> parses hit. simpl.
        now rewrite (scan_conflicts_true _ _ _ _ _ parses hit).
Qed.

(** ** Exceptions *)

Lemma huge_hour_overflows : _parse_time "2147483648:00" = Raise OverflowError.
Proof. vm_compute. reflexivity. Qed.

(** C3 at the input that breaks it: the date parses, the start time
    2147483648:00 does not, and the call neither reports an invalid time
    nor any other rejection: OverflowError leaves the function. *)
Theorem parse_failure_is_not_reported :
  _parse_date "2099-01-01" = Ok (mk_date 2099 1 1)
  /\ _parse_time "2147483648:00" = Raise OverflowError
  /\ create_reservation env_ok "u1" 1 "2099-01-01" "2147483648:00" "15:00" empty_world
     = (Raise OverflowError, empty_world).
Proof. repeat split; vm_compute; reflexivity. Qed.

(** C4 at the inputs that break it: when the date parses and the hour or
    the minute of the start string, or of the end string after a good
    start string, does not fit a C int, [create_reservation] raises
    OverflowError, in every store and at every time. *)
Theorem create_reservation_raises_overflow e user cid d s t w dobj :
  _parse_date d = Ok dobj ->
  _parse_time s = Raise OverflowError
  \/ ((exists sobj, _parse_time s = Ok sobj) /\ _parse_time t = Raise OverflowError) ->
  create_reservation e user cid d s t w = (Raise OverflowError, w).
Proof.
  intros pd bad. unfold create_reservation, parse_inputs, bind. rewrite pd.
  destruct bad as [-> | [[sobj ->] ->]]; reflexivity.
Qed.

(** An hour above the C int range, and a minute below it. *)
Lemma create_reservation_raises_overflow_witness :
  create_reservation env_ok "u1" 1 "2099-01-01" "2147483648:00" "15:00" one_booking
  = (Raise OverflowError, one_booking)
  /\ create_reservation env_ok "u1" 1 "2099-01-01" "14:00" "15:-2147483649" one_booking
     = (Raise OverflowError, one_booking).
Proof.
  split.
  - apply (create_reservation_raises_overflow _ _ _ _ _ _ _ (mk_date 2099 1 1)).
    + vm_compute. reflexivity.
    + left. vm_compute. reflexivity.
  - apply (create_reservation_raises_overflow _ _ _ _ _ _ _ (mk_date 2099 1 1)).
    + vm_compute. reflexivity.
    + right. split; [exists (mk_time 14 0) |]; vm_compute; reflexivity.
Defined.

(** ** Orders on strings and keys *)

Section Comparison.
Variable A : Type.
Variable cmp : A -> A -> comparison.
Hypothesis cmp_eq : forall a b, cmp a b = Eq -> a = b.
Hypothesis cmp_antisym : forall a b, cmp a b = CompOpp (cmp b a).
Hypothesis cmp_lt_trans : forall a b c, cmp a b = Lt -> cmp b c = Lt -> cmp a c = Lt.

Lemma cmp_not_lt_trans a b c : cmp b a <> Lt -> cmp c b <> Lt -> cmp c a <> Lt.
Proof.
  intros ab bc ca.
  destruct (cmp b a) eqn:ba; [| contradiction |].
  - apply cmp_eq in ba. subst b. contradiction.
  - destruct (cmp c b) eqn:cb; [| contradiction |].
    + apply cmp_eq in cb. subst c. congruence.
    + assert (lt1 : cmp a b = Lt) by (rewrite cmp_antisym, ba; reflexivity).
      assert (lt2 : cmp b c = Lt) by (rewrite cmp_antisym, cb; reflexivity).
      pose proof (cmp_lt_trans _ _ _ lt1 lt2) as ac.
      rewrite cmp_antisym, ca in ac. discriminate.
Qed.

Lemma cmp_lt_not_gt a b : cmp a b = Lt -> cmp b a <> Lt.
Proof. intros ab ba. rewrite cmp_antisym, ba in ab. discriminate. Qed.
End Comparison.

Lemma ascii_compare_refl a : Ascii.compare a a = Eq.
Proof. apply N.compare_refl. Qed.

Lemma ascii_compare_lt_trans a b c :
  Ascii.compare a b = Lt -> Ascii.compare b c = Lt -> Ascii.compare a c = Lt.
Proof. unfold Ascii.compare. rewrite !N.compare_lt_iff. lia. Qed.

Lemma string_compare_refl s : String.compare s s = Eq.
Proof. induction s as [| c s IH]; simpl; [| rewrite ascii_compare_refl]; auto. Qed.

Lemma string_compare_lt_trans a b c :
  String.compare a b = Lt -> String.compare b c = Lt -> String.compare a c = Lt.
Proof.
  revert b c. induction a as [| x a IH]; intros [| y b] [| z c]; simpl;
    try discriminate; auto.
  destruct (Ascii.compare x y) eqn:xy; try discriminate.
  - apply Ascii.compare_eq_iff in xy. subst y.
    destruct (Ascii.compare x z); auto. apply IH.
  - intros _. destruct (Ascii.compare y z) eqn:yz; try discriminate.
    + apply Ascii.compare_eq_iff in yz. subst z. now rewrite xy.
    + now rewrite (ascii_compare_lt_trans _ _ _ xy yz).
Qed.

Lemma string_eqb_compare a b : (a =? b)%string = true <-> String.compare a b = Eq.
Proof.
  rewrite String.eqb_eq. split.
  - intros ->. apply string_compare_refl.
  - apply String.compare_eq_iff.
Qed.

Lemma key_ltb_compare a b : key_ltb a b = true <-> key_compare a b = Lt.
Proof.
  unfold key_ltb, key_compare, String.ltb.
  destruct (String.eqb_spec (fst a) (fst b)) as [-> | diff].
  - rewrite string_compare_refl.
    destruct (String.compare (snd a) (snd b)); split; congruence.
  - destruct (String.compare (fst a) (fst b)) eqn:c; split; try congruence.
    apply String.compare_eq_iff in c. contradiction.
Qed.

Lemma key_compare_eq a b : key_compare a b = Eq -> a = b.
Proof.
  unfold key_compare. destruct a as [a1 a2], b as [b1 b2]; simpl.
  destruct (String.compare a1 b1) eqn:c; try discriminate.
  intros c2. apply String.compare_eq_iff in c, c2. congruence.
Qed.

Lemma key_compare_refl a : key_compare a a = Eq.
Proof. unfold key_compare. now rewrite !string_compare_refl. Qed.

Lemma key_compare_antisym a b : key_compare a b = CompOpp (key_compare b a).
Proof.
  unfold key_compare. rewrite (String.compare_antisym (fst a) (fst b)).
  destruct (String.compare (fst b) (fst a)); simpl; auto using String.compare_antisym.
Qed.

Lemma key_compare_lt_trans a b c :
  key_compare a b = Lt -> key_compare b c = Lt -> key_compare a c = Lt.
Proof.
  unfold key_compare.
  destruct (String.compare (fst a) (fst b)) eqn:ab; try discriminate.
  - apply String.compare_eq_iff in ab. rewrite ab.
    destruct (String.compare (fst b) (fst c)); try discriminate; auto.
    apply string_compare_lt_trans.
  - intros _. destruct (String.compare (fst b) (fst c)) eqn:bc; try discriminate.
    + apply String.compare_eq_iff in bc. rewrite <- bc, ab. auto.
    + now rewrite (string_compare_lt_trans _ _ _ ab bc).
Qed.

Lemma key_le_trans a b c : key_le a b -> key_le b c -> key_le a c.
Proof.
  unfold key_le. rewrite <- !not_true_iff_false, !key_ltb_compare.
  apply (cmp_not_lt_trans _ key_compare key_compare_eq key_compare_antisym
           key_compare_lt_trans).
Qed.

Lemma key_lt_le a b : key_ltb (sort_key a) (sort_key b) = true -> key_le a b.
Proof.
  unfold key_le. rewrite <- not_true_iff_false, !key_ltb_compare.
  apply (cmp_lt_not_gt _ key_compare key_compare_antisym).
Qed.

(** ** The classroom listing *)

Lemma insert_sorted_perm x l : Permutation (insert_sorted x l) (x :: l).
Proof.
  induction l as [| y l IH]; simpl; [reflexivity |].
  destruct (key_ltb (sort_key y) (sort_key x)); [| reflexivity].
  rewrite IH. apply perm_swap.
Qed.

Lemma sort_by_key_perm l : Permutation (sort_by_key l) l.
Proof.
  induction l as [| x l IH]; simpl; [reflexivity |].
  rewrite insert_sorted_perm. now constructor.
Qed.

Lemma insert_sorted_sorted x l :
  StronglySorted key_le l -> StronglySorted key_le (insert_sorted x l).
Proof.
  induction 1 as [| y l sorted IH above]; simpl.
  - repeat constructor.
  - destruct (key_ltb (sort_key y) (sort_key x)) eqn:below.
    + constructor; [exact IH |].
      rewrite Forall_forall in *. intros z mem.
      apply (Permutation_in _ (insert_sorted_perm x l)) in mem.
      destruct mem as [<- | old]; [now apply key_lt_le | now apply above].
    + constructor; [now constructor |].
      constructor; [exact below |].
      rewrite Forall_forall in *. intros z mem.
      apply (key_le_trans _ y); [exact below | now apply above].
Qed.

Lemma sort_by_key_sorted l : StronglySorted key_le (sort_by_key l).
Proof.
  induction l as [| x l IH]; simpl; [constructor | now apply insert_sorted_sorted].
Qed.

Lemma filter_twice {A : Type} (f g : A -> bool) l :
  filter g (filter f l) = filter (fun x => f x && g x) l.
Proof.
  induction l as [| x l IH]; simpl; [reflexivity |].
  destruct (f x); simpl; [destruct (g x) |]; now rewrite IH.
Qed.

Lemma get_classroom_reservations_sorts cid d w :
  get_classroom_reservations cid d w
  = sort_by_key (filter (wanted cid d) (RESERVATIONS w)).
Proof.
  unfold get_classroom_reservations, wanted.
  destruct (truthy d).
  - now rewrite filter_twice.
  - f_equal. apply filter_ext. intros kv. now rewrite andb_true_r.
Qed.

Lemma wanted_spec cid d kv :
  wanted cid d kv = true <->
  classroom_id (snd kv) = cid
  /\ forall s, d = Some s -> s <> "" -> date (snd kv) = s.
Proof.
  unfold wanted, truthy, date_is.
  rewrite andb_true_iff, Z.eqb_eq.
  destruct d as [s |].
  - destruct (String.eqb_spec s "") as [-> | filled]; simpl.
    + split; [| tauto]. intros [room _]. split; [exact room |].
      intros s eq bad. inversion eq; subst. contradiction.
    + rewrite String.eqb_eq. split.
      * intros [room day]. split; [exact room | intros s' eq _; congruence].
      * intros [room day]. split; [exact room | now apply day].
  - split; [intros [room _]; split; [exact room | discriminate] | tauto].
Qed.

Lemma sorted_strengthen {A : Type} (R R' : A -> A -> Prop) l :
  StronglySorted R l -> NoDup l ->
  (forall a b, In a l -> In b l -> a <> b -> R a b -> R' a b) ->
  StronglySorted R' l.
Proof.
  induction 1 as [| x l sorted IH above]; intros nodup better; [constructor |].
  inversion nodup as [| ? ? fresh nodup']; subst.
  constructor.
  - apply IH; [exact nodup' |].
    intros a b ma mb. apply better; now right.
  - rewrite Forall_forall in *. intros y mem.
    apply better; [now left | now right | | now apply above].
    intros ->. contradiction.
Qed.

Lemma nodup_keys_entries (d : pydict) a b :
  NoDup (keys d) -> In a d -> In b d -> fst a = fst b -> a = b.
Proof.
  unfold keys. induction d as [| x d IH]; simpl; [intros _ [] |].
  intros nodup ma mb same. inversion nodup as [| ? ? fresh nodup']; subst.
  destruct ma as [-> | ma], mb as [-> | mb]; auto.
  - exfalso. apply fresh. rewrite same. now apply in_map.
  - exfalso. apply fresh. rewrite <- same. now apply in_map.
Qed.

Lemma same_start_overlap r1 r2 :
  positive_interval r1 -> positive_interval r2 ->
  start_time r1 = start_time r2 -> overlapping r1 r2 = true.
Proof.
  unfold positive_interval, overlapping, stored_interval. intros p1 p2 same.
  rewrite same in *.
  destruct (_parse_time (start_time r2)) as [s |]; [| contradiction].
  destruct (_parse_time (end_time r1)) as [e1 |]; [| contradiction].
  destruct (_parse_time (end_time r2)) as [e2 |]; [| contradiction].
  unfold _is_time_overlap. apply andb_true_iff. split; apply Z.ltb_lt; lia.
Qed.




(** ** Where no exception leaves create_reservation *)

Lemma scan_conflicts_returns cid d sobj tobj vals :
  Forall (fun r => stored_interval r <> None) vals ->
  exists b, scan_conflicts cid d sobj tobj vals = Ok b.
Proof.
  induction 1 as [| r vals parses _ [b IH]]; simpl; [now exists false |].
  destruct ((classroom_id r =? cid) && (date r =? d)%string); [| now exists b].
  unfold stored_interval in parses. unfold bind.
  destruct (_parse_time (start_time r)) as [es |]; [| contradiction].
  destruct (_parse_time (end_time r)) as [ee |]; [| contradiction].
  destruct (_is_time_overlap sobj tobj es ee); [now exists true | now exists b].
Qed.


(** The calls keep the time strings of the store parseable: what
    [create_reservation] stores it has parsed. *)
Theorem stored_times_parse_preserved cs w :
  stored_times_parse w -> stored_times_parse (run cs w).
Proof.
  revert w. induction cs as [| c cs IH]; intros w inv; simpl; [exact inv |].
  apply IH. clear IH. unfold stored_times_parse, values in *.
  rewrite Forall_forall in *.
  destruct (step_cases c w)
    as [-> | [(e & user & cid & d & s & t & -> & -> & ok) | (k & dict & _)]].
  - exact inv.
  - simpl in ok.
    destruct (create_reservation e user cid d s t w) as [res w'] eqn:call.
    simpl in ok; subst res.
    apply create_reservation_success_inv in call.
    destruct call as (_ & _ & dobj & sobj & tobj & parsed & _).
    apply parse_inputs_ok in parsed. destruct parsed as (_ & ps & pt).
    destruct (created_memory e user cid d s t w) as [-> _].
    intros r mem. apply in_map_iff in mem. destruct mem as [[j r'] [<- mem]].
    destruct (in_dict_set _ _ _ _ _ mem) as [[_ ->] | old].
    + unfold stored_interval. simpl. rewrite ps, pt. discriminate.
    + apply inv. now apply (in_map snd _ (j, r')).
  - rewrite dict. intros r mem.
    apply in_map_iff in mem. destruct mem as [[j r'] [<- mem]].
    apply in_dict_del in mem. apply inv. now apply (in_map snd _ (j, r')).
Qed.

(** ** Examples of the theorems at work *)

(** 09:00 to 10:00 overlaps 09:59 to 23:01. *)
Lemma is_time_overlap_spec_witness :
  _is_time_overlap (mk_time 9 0) (mk_time 10 0) (mk_time 9 59) (mk_time 23 1) = true.
Proof. apply (proj1 is_time_overlap_spec). simpl. lia. Defined.



(** After the same day of calls the deleted id 4 is gone and below the counter. *)
Lemma ids_are_never_reused_witness :
  counter_above_ids (run busy_day two_bookings)
  /\ 4 < _next_id (run busy_day two_bookings)
  /\ get_reservation 4 (run busy_day two_bookings) = None.
Proof.
  destruct ids_are_never_reused as (_ & _ & later).
  destruct (later busy_day two_bookings 4) as [inv above].
  - unfold counter_above_ids. simpl. repeat constructor; lia.
  - simpl. auto.
  - split; [exact inv | split; [exact above | vm_compute; reflexivity]].
Defined.

(** A conflicting request and a cancellation by another user change nothing. *)
Lemma rejection_is_atomic_witness :
  snd (create_reservation env_ok "u2" 1 "2099-01-01" "14:00" "15:00" one_booking)
  = one_booking
  /\ snd (cancel_reservation Written 1 "u2" one_booking) = one_booking.
Proof.
  split.
  - apply (proj1 rejection_is_atomic env_ok "u2" 1 "2099-01-01" "14:00" "15:00"
             one_booking MSG_CONFLICT).
    vm_compute. reflexivity.
  - apply (proj2 rejection_is_atomic Written 1 "u2" one_booking MSG_NOT_OWNER).
    vm_compute. reflexivity.
Defined.

(** ** Administrative deletion *)

Lemma dict_mem_get k d :
  dict_mem k d = true <-> exists r, dict_get k d = Some r.
Proof.
  unfold dict_mem. destruct (dict_get k d) as [r |].
  - split; [now exists r | reflexivity].
  - split; [discriminate | now intros [r bad]].
Qed.



(** ** A user's reservations *)

Lemma dict_set_fresh k v d :
  ~ In k (keys d) -> dict_set k v d = (d ++ [(k, v)])%list.
Proof.
  unfold keys. induction d as [| [k' v'] d IH]; simpl; [reflexivity |].
  intros fresh. destruct (Z.eqb_spec k' k) as [-> | ne]; [tauto |].
  rewrite IH; tauto.
Qed.

Lemma counter_above_ids_fresh w :
  counter_above_ids w -> ~ In (_next_id w) (keys (RESERVATIONS w)).
Proof.
  unfold counter_above_ids. rewrite Forall_forall. intros inv mem.
  specialize (inv _ mem). lia.
Qed.

Lemma filter_dict_del (f : Z * reservation -> bool) k d :
  filter f (dict_del k d) = filter (fun kv => negb (fst kv =? k)) (filter f d).
Proof.
  unfold dict_del. induction d as [| x d IH]; simpl; [reflexivity |].
  destruct (negb (fst x =? k)) eqn:keep, (f x) eqn:fx; simpl;
    rewrite ?keep, ?fx, IH; reflexivity.
Qed.

(** [get_user_reservations] lists the entries of the user and no others,
    in the order of the store. A successful [create_reservation] on a
    store whose counter is above its ids puts the new entry at the end of
    its user's listing and leaves every other user's listing as it was; a
    successful [cancel_reservation] takes the entry out of the listings and
    changes nothing else in them. *)
Theorem get_user_reservations_follows_calls :
  (forall u w i r,
      In (i, r) (get_user_reservations u w) <->
      In (i, r) (RESERVATIONS w) /\ user_id r = u)
  /\ (forall e u cid d s t w msg w',
        counter_above_ids w ->
        create_reservation e u cid d s t w = (Ok (true, msg), w') ->
        get_user_reservations u w'
        = (get_user_reservations u w ++ [(_next_id w, mk_reservation u cid d s t)])%list
        /\ forall u', u' <> u ->
             get_user_reservations u' w' = get_user_reservations u' w)
  /\ (forall o i u w msg w',
        cancel_reservation o i u w = ((true, msg), w') ->
        forall u',
          get_user_reservations u' w'
          = filter (fun kv => negb (fst kv =? i)) (get_user_reservations u' w)).
Proof.
  split; [| split].
  - intros u w i r. unfold get_user_reservations.
    rewrite filter_In. simpl. now rewrite String.eqb_eq.
  - intros e u cid d s t w msg w' inv call.
    apply create_reservation_success_inv in call. destruct call as (_ & -> & _).
    unfold get_user_reservations.
    destruct (created_memory e u cid d s t w) as [-> _].
    rewrite (dict_set_fresh _ _ _ (counter_above_ids_fresh w inv)), !filter_app.
    simpl. rewrite String.eqb_refl. split; [reflexivity |].
    intros u' other. rewrite filter_app. simpl.
    apply not_eq_sym, String.eqb_neq in other. rewrite other. apply app_nil_r.
  - intros o i u w msg w'. unfold cancel_reservation.
    destruct (dict_get i (RESERVATIONS w)) as [r |]; [| discriminate].
    destruct (negb (user_id r =? u)%string); [discriminate |].
    intros call u'. inversion call; subst. unfold get_user_reservations.
    destruct o; simpl; apply filter_dict_del.
Qed.

(** A third booking by u1 on the two-booking store, then its cancellation. *)
Lemma get_user_reservations_follows_calls_witness :
  exists w1 w2,
    create_reservation env_ok "u1" 1 "2099-01-01" "16:00" "17:00" two_bookings
    = (Ok (true, MSG_CREATED), w1)
    /\ map fst (get_user_reservations "u1" w1) = [1; 5]
    /\ map fst (get_user_reservations "u2" w1) = [4]
    /\ cancel_reservation Written 1 "u1" w1 = ((true, MSG_CANCELLED), w2)
    /\ map fst (get_user_reservations "u1" w2) = [5].
Proof.
  destruct get_user_reservations_follows_calls as (_ & grows & shrinks).
  assert (first :
    create_reservation env_ok "u1" 1 "2099-01-01" "16:00" "17:00" two_bookings
    = (Ok (true, MSG_CREATED),
       created env_ok "u1" 1 "2099-01-01" "16:00" "17:00" two_bookings))
    by (vm_compute; reflexivity).
  assert (second :
    cancel_reservation Written 1 "u1"
      (created env_ok "u1" 1 "2099-01-01" "16:00" "17:00" two_bookings)
    = ((true, MSG_CANCELLED),
       snd (cancel_reservation Written 1 "u1"
              (created env_ok "u1" 1 "2099-01-01" "16:00" "17:00" two_bookings))))
    by (vm_compute; reflexivity).
  assert (inv : counter_above_ids two_bookings)
    by (unfold counter_above_ids; simpl; repeat constructor; lia).
  destruct (grows _ _ _ _ _ _ _ _ _ inv first) as [mine others].
  eexists _, _. split; [exact first |].
  split; [rewrite mine; reflexivity |].
  split; [rewrite (others "u2"); [reflexivity | discriminate] |].
  split; [exact second |].
  rewrite (shrinks _ _ _ _ _ _ second "u1"), mine. reflexivity.
Defined.

(** ** The keys of the file *)

Lemma digits_from_uint u acc c b :
  u <> Decimal.Nil \/ b = true ->
  digits_from (DecimalString.NilEmpty.string_of_uint u) acc c b
  = Some (uint_value u acc, c + Z.of_nat (Decimal.nb_digits u)).
Proof.
  revert acc c b. induction u; intros acc c b ok; simpl;
    try (rewrite IHu by (now right); f_equal; f_equal; lia).
  destruct ok as [bad | ->]; [contradiction | f_equal; f_equal; lia].
Qed.

Lemma uint_value_acc u p : uint_value u (Z.pos p) = Z.pos (Pos.of_uint_acc u p).
Proof.
  revert p. induction u; intros p; cbn [uint_value Pos.of_uint_acc];
    try reflexivity; rewrite <- IHu; f_equal; lia.
Qed.

Lemma uint_value_of_uint u : uint_value u 0 = Z.of_uint u.
Proof.
  unfold Z.of_uint. induction u; cbn [uint_value Pos.of_uint Z.of_N];
    try reflexivity; try exact IHu; apply uint_value_acc.
Qed.

Lemma lstrip_uint u :
  lstrip (DecimalString.NilEmpty.string_of_uint u)
  = DecimalString.NilEmpty.string_of_uint u.
Proof. destruct u; reflexivity. Qed.

Lemma rstrip_uint u :
  rstrip (DecimalString.NilEmpty.string_of_uint u)
  = DecimalString.NilEmpty.string_of_uint u.
Proof. induction u; simpl; try reflexivity; now rewrite IHu. Qed.

Lemma py_int_uint u :
  u <> Decimal.Nil ->
  Z.of_nat (Decimal.nb_digits u) <= MAX_STR_DIGITS ->
  py_int (DecimalString.NilEmpty.string_of_uint u) = Ok (Z.of_uint u)
  /\ py_int (String "-" (DecimalString.NilEmpty.string_of_uint u)) = Ok (- Z.of_uint u).
Proof.
  intros filled short.
  assert (read : forall s, s = DecimalString.NilEmpty.string_of_uint u ->
            digits_from s 0 0 false = Some (Z.of_uint u, Z.of_nat (Decimal.nb_digits u))).
  { intros s ->. rewrite digits_from_uint by now left.
    now rewrite uint_value_of_uint. }
  assert (within : (MAX_STR_DIGITS <? Z.of_nat (Decimal.nb_digits u)) = false)
    by (apply Z.ltb_ge; exact short).
  split.
  - unfold py_int. rewrite lstrip_uint, rstrip_uint.
    destruct u; try contradiction;
      cbn [DecimalString.NilEmpty.string_of_uint];
      rewrite read by reflexivity; rewrite within; reflexivity.
  - unfold py_int.
    change (lstrip (String "-" (DecimalString.NilEmpty.string_of_uint u)))
      with (String "-" (DecimalString.NilEmpty.string_of_uint u)).
    assert (tail : rstrip (String "-" (DecimalString.NilEmpty.string_of_uint u))
                   = String "-" (DecimalString.NilEmpty.string_of_uint u)).
    { simpl. now rewrite rstrip_uint. }
    rewrite tail. cbv zeta iota beta.
    rewrite read by reflexivity. rewrite within. reflexivity.
Qed.

(** [int(str(k))] is [k]. *)
Lemma py_int_py_str k s : py_str k = Ok s -> py_int s = Ok k.
Proof.
  unfold py_str.
  destruct (MAX_STR_DIGITS <? Z.of_nat (Decimal.nb_digits (digits_of (Z.to_int k))))
    eqn:long; [discriminate |].
  apply Z.ltb_ge in long. intros eq. inversion eq as [text]. clear eq.
  pose proof (DecimalZ.of_to k) as back.
  destruct k as [| p | p]; simpl in *.
  - reflexivity.
  - pose proof (DecimalPos.Unsigned.to_uint_nonnil p) as filled.
    destruct (py_int_uint _ filled long) as [plain _].
    unfold DecimalString.NilZero.string_of_uint.
    destruct (Pos.to_uint p) eqn:u; try contradiction; rewrite plain, back; reflexivity.
  - pose proof (DecimalPos.Unsigned.to_uint_nonnil p) as filled.
    destruct (py_int_uint _ filled long) as [_ signed].
    unfold DecimalString.NilZero.string_of_uint.
    destruct (Pos.to_uint p) eqn:u; try contradiction; rewrite signed, back; reflexivity.
Qed.

Lemma py_str_inj k k' s : py_str k = Ok s -> py_str k' = Ok s -> k = k'.
Proof.
  intros a b. apply py_int_py_str in a, b. congruence.
Qed.

Lemma py_int_raises_value_error s e : py_int s = Raise e -> exists m, e = ValueError m.
Proof.
  unfold py_int.
  destruct (match rstrip (lstrip s) with
            | String "-" r => (true, r)
            | String "+" r => (false, r)
            | _ => (false, rstrip (lstrip s))
            end) as [neg ds].
  destruct (digits_from ds 0 0 false) as [[v n] |].
  - destruct (MAX_STR_DIGITS <? n); [| discriminate].
    inversion 1. now eexists.
  - inversion 1. now eexists.
Qed.

Lemma str_dict_set_fresh k v d :
  ~ In k (map fst d) -> str_dict_set k v d = (d ++ [(k, v)])%list.
Proof.
  induction d as [| [k' v'] d IH]; simpl; [reflexivity |].
  intros fresh. destruct (String.eqb_spec k' k) as [-> | ne]; [tauto |].
  rewrite IH; tauto.
Qed.

Lemma rendered_keys j d s k :
  rendered j d -> py_str k = Ok s -> In s (map fst j) -> In k (keys d).
Proof.
  unfold rendered, keys. induction 1 as [| sv kv j d [key _] _ IH]; simpl; [tauto |].
  intros text [same | later]; [left | right; auto].
  subst s. now apply (py_str_inj _ _ _ key text).
Qed.

Lemma keys_to_str_rendered items acc acc_i j :
  rendered acc acc_i -> NoDup (keys (acc_i ++ items)%list) ->
  keys_to_str items acc = Ok j -> rendered j (acc_i ++ items)%list.
Proof.
  revert acc acc_i. induction items as [| [k v] items IH]; intros acc acc_i fits nodup; simpl.
  - rewrite app_nil_r. intros eq. inversion eq; subst. exact fits.
  - unfold bind. destruct (py_str k) as [s |] eqn:text; [| discriminate].
    intros rest.
    replace (acc_i ++ (k, v) :: items)%list with ((acc_i ++ [(k, v)]) ++ items)%list
      in * by (rewrite <- app_assoc; reflexivity).
    apply (IH (str_dict_set s v acc)); auto.
    rewrite str_dict_set_fresh.
    + apply Forall2_app; [exact fits | repeat constructor; auto].
    + intros mem. apply (rendered_keys _ _ _ _ fits text) in mem.
      unfold keys in nodup. rewrite !map_app in nodup. simpl in nodup.
      rewrite <- app_assoc in nodup. apply NoDup_remove_2 in nodup.
      apply nodup. apply in_or_app. now left.
Qed.

Lemma keys_to_int_rendered j d acc :
  rendered j d -> NoDup (keys (acc ++ d)%list) -> keys_to_int j acc = Ok (acc ++ d)%list.
Proof.
  intros fits. revert acc.
  induction fits as [| [s v] [k v'] j d [text same] _ IH]; intros acc nodup; simpl in *.
  - now rewrite app_nil_r.
  - subst v'. rewrite (py_int_py_str _ _ text). simpl.
    replace (acc ++ (k, v) :: d)%list with ((acc ++ [(k, v)]) ++ d)%list
      in * by (rewrite <- app_assoc; reflexivity).
    rewrite dict_set_fresh; [now apply IH |].
    intros mem. unfold keys in nodup. rewrite !map_app in nodup. simpl in nodup.
    rewrite <- app_assoc in nodup. apply NoDup_remove_2 in nodup.
    apply nodup. apply in_or_app. now left.
Qed.

Lemma keys_to_int_bad_key items acc k v :
  In (k, v) items -> (forall i, py_int k <> Ok i) ->
  exists m, keys_to_int items acc = Raise (ValueError m).
Proof.
  revert acc. induction items as [| [k' v'] items IH]; intros acc mem bad; [destruct mem |].
  simpl. unfold bind. destruct (py_int k') as [i | e] eqn:read.
  - destruct mem as [eq | later]; [| now apply IH].
    inversion eq; subst. now destruct (bad i).
  - destruct (py_int_raises_value_error _ _ read) as [m ->]. now exists m.
Qed.

(** The document that [_save_reservations] builds from a store with
    distinct ids is read back by [_load_reservations] as the same
    dictionary, in the same order, with the same counter: every id
    survives [str] followed by [int]. A document with a key that [int]
    rejects is read as the empty store with counter 1, whatever else it
    holds. *)
Theorem document_round_trip :
  (forall w doc,
      NoDup (keys (RESERVATIONS w)) ->
      to_document w = Ok doc ->
      from_document doc = Ok (RESERVATIONS w, _next_id w))
  /\ (forall items n k v,
        In (k, v) items -> (forall i, py_int k <> Ok i) ->
        from_document (mk_document (Some items) n) = Ok ([], 1)).
Proof.
  split.
  - intros w doc nodup. unfold to_document, bind.
    destruct (keys_to_str (RESERVATIONS w) []) as [j |] eqn:written; [| discriminate].
    inversion 1; subst doc. unfold from_document, bind. simpl.
    apply (keys_to_str_rendered _ [] []) in written; [| constructor | exact nodup].
    now rewrite (keys_to_int_rendered _ _ [] written nodup).
  - intros items n k v mem bad. unfold from_document, bind. simpl.
    destruct (keys_to_int_bad_key items [] k v mem bad) as [m ->]. reflexivity.
Qed.

(** The two-booking store, and a file whose second key is not a number. *)
Lemma document_round_trip_witness :
  (exists doc,
      to_document two_bookings = Ok doc
      /\ option_map (map fst) (doc_reservations doc) = Some ["1"; "4"]
      /\ from_document doc = Ok (RESERVATIONS two_bookings, 5))
  /\ from_document (mk_document (Some [("1", booked_14); ("x", booked_15)]) (Some 3))
     = Ok ([], 1).
Proof.
  split.
  - assert (written : to_document two_bookings
                      = Ok (mk_document (Some [("1", booked_14); ("4", booked_15)]) (Some 5)))
      by (vm_compute; reflexivity).
    eexists. split; [exact written | split; [reflexivity |]].
    apply (proj1 document_round_trip two_bookings); [| exact written].
    change (NoDup [1; 4]). repeat constructor; simpl; intuition discriminate.
  - apply (proj2 document_round_trip _ _ "x" booked_15); [simpl; auto |].
    intros i. vm_compute. discriminate.
Defined.

(** ** What the store holds after any calls *)

Lemma step_all_bookable c w : all_bookable w -> all_bookable (step c w).
Proof.
  unfold all_bookable, values. rewrite !Forall_forall. intros inv.
  destruct (step_cases c w)
    as [-> | [(e & user & cid & d & s & t & -> & -> & ok) | (k & dict & _)]].
  - exact inv.
  - simpl in ok.
    destruct (create_reservation e user cid d s t w) as [res w'] eqn:call.
    simpl in ok; subst res.
    apply create_reservation_success_inv in call.
    destruct call as (_ & _ & dobj & sobj & tobj & parsed & _ & slot & _).
    apply parse_inputs_ok in parsed. destruct parsed as (pd & ps & pt).
    destruct (created_memory e user cid d s t w) as [-> _].
    intros r mem. apply in_map_iff in mem. destruct mem as [[j r'] [<- mem]].
    destruct (in_dict_set _ _ _ _ _ mem) as [[_ ->] | old].
    + now exists dobj, sobj, tobj.
    + apply inv. now apply (in_map snd _ (j, r')).
  - rewrite dict. intros r mem.
    apply in_map_iff in mem. destruct mem as [[j r'] [<- mem]].
    apply in_dict_del in mem. apply inv. now apply (in_map snd _ (j, r')).
Qed.

Lemma all_bookable_times_parse w : all_bookable w -> stored_times_parse w.
Proof.
  unfold all_bookable, stored_times_parse. apply Forall_impl.
  intros r (d & s & e & _ & ps & pe & _). unfold stored_interval.
  rewrite ps, pe. discriminate.
Qed.

Lemma dict_get_in k d r : dict_get k d = Some r -> In (k, r) d.
Proof.
  induction d as [| [k' v] d IH]; simpl; [discriminate |].
  destruct (Z.eqb_spec k' k) as [-> | ne].
  - inversion 1. now left.
  - intros found. right. now apply IH.
Qed.

Lemma valid_slot_fields s e :
  _is_valid_time_slot s e = true ->
  minute s = 0 /\ minute e = 0 /\ hour e = (hour s + 1) mod 24.
Proof.
  unfold _is_valid_time_slot.
  destruct (Z.eqb_spec (minute s) 0), (Z.eqb_spec (minute e) 0); simpl;
    try discriminate.
  rewrite Z.eqb_eq. auto.
Qed.

(** Every record of a store reached from the empty store by create, cancel
    and delete calls has a date and times that parse and is a one-hour slot
    on the hour: the calls keep this true of any store of which it is
    true. *)
Theorem stored_records_are_bookable :
  (forall cs w, all_bookable w -> all_bookable (run cs w))
  /\ (forall cs i r,
        get_reservation i (run cs empty_world) = Some r ->
        exists d s e,
          _parse_date (date r) = Ok d
          /\ _parse_time (start_time r) = Ok s
          /\ _parse_time (end_time r) = Ok e
          /\ minute s = 0 /\ minute e = 0 /\ hour e = (hour s + 1) mod 24).
Proof.
  assert (kept : forall cs w, all_bookable w -> all_bookable (run cs w)).
  { induction cs as [| c cs IH]; intros w inv; simpl; auto using step_all_bookable. }
  split; [exact kept |].
  intros cs i r found.
  assert (inv : all_bookable (run cs empty_world)) by (apply kept; constructor).
  unfold all_bookable, values in inv. rewrite Forall_forall in inv.
  apply dict_get_in in found. apply (in_map snd) in found.
  destruct (inv r found) as (d & s & e & pd & ps & pe & slot).
  exists d, s, e. apply valid_slot_fields in slot. tauto.
Qed.

(** The store after the day of calls on the empty store. *)
Lemma stored_records_are_bookable_witness :
  exists r d s e,
    get_reservation 2 (run busy_day empty_world) = Some r
    /\ _parse_date (date r) = Ok d
    /\ _parse_time (start_time r) = Ok s
    /\ _parse_time (end_time r) = Ok e
    /\ minute s = 0 /\ minute e = 0 /\ hour e = (hour s + 1) mod 24.
Proof.
  assert (found : get_reservation 2 (run busy_day empty_world)
                  = Some (mk_reservation "u3" 1 "2099-01-01" "16:00" "17:00"))
    by (vm_compute; reflexivity).
  destruct (proj2 stored_records_are_bookable busy_day 2 _ found)
    as (d & s & e & shape).
  exists (mk_reservation "u3" 1 "2099-01-01" "16:00" "17:00"), d, s, e.
  split; [exact found | exact shape].
Defined.

(** ** What the parsers accept *)

Lemma time_new_ok h m t :
  time_new h m = Ok t -> t = mk_time h m /\ 0 <= h <= 23 /\ 0 <= m <= 59.
Proof.
  unfold time_new.
  destruct (negb (fits_c_int h && fits_c_int m)); [discriminate |].
  destruct ((0 <=? h) && (h <=? 23)) eqn:hours; simpl; [| discriminate].
  destruct ((0 <=? m) && (m <=? 59)) eqn:minutes; simpl; [| discriminate].
  apply andb_true_iff in hours, minutes.
  rewrite !Z.leb_le in hours, minutes. inversion 1. auto.
Qed.

Lemma parse_time_ok s t :
  _parse_time s = Ok t -> 0 <= hour t <= 23 /\ 0 <= minute t <= 59.
Proof.
  unfold _parse_time.
  destruct (split_colon s) as [| a [| b [| c rest]]]; try discriminate.
  unfold bind.
  destruct (py_int a) as [h | [m |]]; try discriminate.
  destruct (py_int b) as [m | [m' |]]; try discriminate.
  destruct (time_new h m) as [t' | [m' |]] eqn:made; try discriminate.
  inversion 1; subst t'.
  apply time_new_ok in made. destruct made as (-> & hours & minutes). auto.
Qed.

(** From [Some (v, rest) = Some (m, r)] keep [v = m], untouched. *)
Ltac matched_value :=
  let eq := fresh "eq" in
  intros eq;
  match type of eq with
  | Some (?v, _) = Some (?m, _) => assert (v = m) by congruence; clear eq
  end.

Lemma in_range_codes lo hi c :
  in_range lo hi c = true -> code lo <= code c <= code hi.
Proof. unfold in_range. rewrite andb_true_iff, !Z.leb_le. tauto. Qed.

Lemma digit_val_range c v : digit_val c = Some v -> 0 <= v <= 9.
Proof.
  unfold digit_val.
  destruct ((48 <=? code c) && (code c <=? 57)) eqn:digit; [| discriminate].
  apply andb_true_iff in digit. rewrite !Z.leb_le in digit.
  intros [= <-]. lia.
Qed.

Lemma match_year_range s y r : match_year s = Some (y, r) -> 0 <= y <= 9999.
Proof.
  unfold match_year.
  destruct s as [| a [| b [| c [| d s]]]]; try discriminate.
  destruct (digit_val a) as [x |] eqn:da; [| discriminate].
  destruct (digit_val b) as [x0 |] eqn:db; [| discriminate].
  destruct (digit_val c) as [x1 |] eqn:dc; [| discriminate].
  destruct (digit_val d) as [x2 |] eqn:dd; [| discriminate].
  apply digit_val_range in da, db, dc, dd. matched_value. lia.
Qed.

Lemma match_month_range s m r : match_month s = Some (m, r) -> 1 <= m <= 12.
Proof.
  unfold match_month. destruct s as [| a s]; [discriminate |].
  assert (single : (if in_range "1" "9" a then Some (code a - 48, s) else None)
                   = Some (m, r) -> 1 <= m <= 12).
  { destruct (in_range "1" "9" a) eqn:ra; [| discriminate].
    apply in_range_codes in ra. change (code "1") with 49 in ra.
    change (code "9") with 57 in ra. matched_value. lia. }
  destruct s as [| b s']; [exact single |].
  destruct ((a =? "1")%char && in_range "0" "2" b) eqn:ten.
  { apply andb_true_iff in ten. destruct ten as [_ rb].
    apply in_range_codes in rb. change (code "0") with 48 in rb.
    change (code "2") with 50 in rb. matched_value. lia. }
  destruct ((a =? "0")%char && in_range "1" "9" b) eqn:padded.
  { apply andb_true_iff in padded. destruct padded as [_ rb].
    apply in_range_codes in rb. change (code "1") with 49 in rb.
    change (code "9") with 57 in rb. matched_value. lia. }
  exact single.
Qed.

Lemma match_day_range s d r : match_day s = Some (d, r) -> 1 <= d.
Proof.
  unfold match_day. destruct s as [| a s]; [discriminate |].
  destruct s as [| b s'].
  - destruct (in_range "1" "9" a) eqn:ra; [| discriminate].
    apply in_range_codes in ra. change (code "1") with 49 in ra. matched_value. lia.
  - destruct ((a =? "3")%char && in_range "0" "1" b) eqn:thirty.
    { apply andb_true_iff in thirty. destruct thirty as [_ rb].
      apply in_range_codes in rb. change (code "0") with 48 in rb. matched_value. lia. }
    destruct (in_range "1" "2" a && in_range "0" "9" b) eqn:teens.
    { apply andb_true_iff in teens. destruct teens as [ra rb].
      apply in_range_codes in ra, rb. change (code "1") with 49 in ra.
      change (code "0") with 48 in rb. matched_value. lia. }
    destruct ((a =? "0")%char && in_range "1" "9" b) eqn:padded.
    { apply andb_true_iff in padded. destruct padded as [_ rb].
      apply in_range_codes in rb. change (code "1") with 49 in rb. matched_value. lia. }
    destruct (in_range "1" "9" a) eqn:ra.
    { apply in_range_codes in ra. change (code "1") with 49 in ra. matched_value. lia. }
    destruct ((a =? " ")%char && in_range "1" "9" b) eqn:spaced; [| discriminate].
    apply andb_true_iff in spaced. destruct spaced as [_ rb].
    apply in_range_codes in rb. change (code "1") with 49 in rb. matched_value. lia.
Qed.

(** What [_parse_time] returns is a time of day, hour 0 to 23 and minute 0
    to 59, at most 1439 minutes after midnight; what [_parse_date] returns
    is a date of the calendar, year 1 to 9999, month 1 to 12, day 1 to the
    length of the month. *)
Theorem parsed_values_are_in_range :
  (forall s t, _parse_time s = Ok t ->
     0 <= hour t <= 23 /\ 0 <= minute t <= 59 /\ 0 <= time_to_minutes t <= 1439)
  /\ (forall s d, _parse_date s = Ok d ->
        1 <= year d <= 9999 /\ 1 <= month d <= 12
        /\ 1 <= day d <= days_in_month (year d) (month d)).
Proof.
  split.
  - intros s t parsed. apply parse_time_ok in parsed.
    unfold time_to_minutes. lia.
  - intros s d. unfold _parse_date, strptime_date.
    destruct (match_year s) as [[y [| c s1]] |] eqn:ys; try discriminate.
    destruct c as [[] [] [] [] [] [] [] []]; try discriminate.
    destruct (match_month s1) as [[m [| c s2]] |] eqn:ms; try discriminate.
    destruct c as [[] [] [] [] [] [] [] []]; try discriminate.
    destruct (match_day s2) as [[dd [| c s3]] |] eqn:ds; try discriminate.
    destruct (Z.ltb_spec y 1); [discriminate |].
    destruct (Z.ltb_spec (days_in_month y m) dd); [discriminate |].
    inversion 1; subst d; simpl.
    apply match_year_range in ys. apply match_month_range in ms.
    apply match_day_range in ds. lia.
Qed.

(** A time and a leap day that parse. *)
Lemma parsed_values_are_in_range_witness :
  0 <= time_to_minutes (mk_time 23 59) <= 1439
  /\ 1 <= 29 <= days_in_month 2096 2.
Proof.
  split.
  - apply (proj1 parsed_values_are_in_range " 23:5_9"). vm_compute. reflexivity.
  - apply (proj2 parsed_values_are_in_range "2096-2-29" (mk_date 2096 2 29)).
    vm_compute. reflexivity.
Defined.

(** ** The last slot of the day *)

Lemma scan_conflicts_midnight_end cid d sobj tobj vals :
  Forall (fun r => stored_interval r <> None) vals ->
  time_to_minutes tobj <= 0 ->
  scan_conflicts cid d sobj tobj vals = Ok false.
Proof.
  intros parses midnight. induction parses as [| r vals ok _ IH]; simpl; [reflexivity |].
  destruct ((classroom_id r =? cid) && (date r =? d)%string); [| exact IH].
  unfold stored_interval in ok. unfold bind.
  destruct (_parse_time (start_time r)) as [es |] eqn:ps; [| contradiction].
  destruct (_parse_time (end_time r)) as [ee |]; [| contradiction].
  apply parse_time_ok in ps.
  assert (free : _is_time_overlap sobj tobj es ee = false).
  { unfold _is_time_overlap. apply andb_false_iff. right.
    apply Z.ltb_ge. unfold time_to_minutes in *. lia. }
  now rewrite free.
Qed.



(** ** The clock *)

Lemma lex_ltb_later a b c :
  List.length b = List.length c ->
  lex_ltb a b = true -> lex_ltb c b = false -> lex_ltb a c = true.
Proof.
  revert b c. induction a as [| x a IH]; intros [| y b] [| z c]; simpl;
    try discriminate; auto.
  intros len below above. injection len as len.
  apply orb_false_iff in above. destruct above as [zy rest].
  apply Z.ltb_ge in zy.
  apply orb_true_iff in below. apply orb_true_iff.
  destruct below as [xy | tie].
  - left. apply Z.ltb_lt in xy. apply Z.ltb_lt. lia.
  - apply andb_true_iff in tie. destruct tie as [xy below].
    apply Z.eqb_eq in xy. subst y.
    destruct (Z.eqb_spec z x) as [-> | ne].
    + right. rewrite Z.eqb_refl. simpl in *. now apply (IH b c).
    + left. apply Z.ltb_lt. lia.
Qed.

Lemma lex_ltb_irrefl a : lex_ltb a a = false.
Proof.
  induction a as [| x a IH]; simpl; [reflexivity |].
  now rewrite Z.ltb_irrefl, Z.eqb_refl, IH.
Qed.

Lemma parse_inputs_error d s t e :
  parse_inputs d s t = Raise e ->
  e = OverflowError
  \/ exists x, e = ValueError (BAD_DATE_FORMAT ++ x)%string
               \/ e = ValueError (BAD_TIME_FORMAT ++ x)%string.
Proof.
  unfold parse_inputs, bind.
  destruct (_parse_date d) as [dobj | ex] eqn:pd.
  2: { intros [= <-]. right. exists d. left. now apply parse_date_error in pd. }
  destruct (_parse_time s) as [sobj | [m |]] eqn:ps.
  2: { intros [= <-]. right. exists s. right.
       now rewrite (parse_time_value_error _ _ ps). }
  2: { intros [= <-]. now left. }
  destruct (_parse_time t) as [tobj | [m |]] eqn:pt; [discriminate | |].
  - intros [= <-]. right. exists t. right.
    now rewrite (parse_time_value_error _ _ pt).
  - intros [= <-]. now left.
Qed.

(** A start that lies in the past at one reading of the clock lies in the
    past at every later reading, and a start equal to the reading does
    not lie in the past. So a request that [create_reservation] rejects
    with the past-time message is rejected with it at every later time,
    whatever the store then holds. *)
Theorem past_stays_past :
  (forall now now' d t,
      _is_past_datetime now d t = true ->
      datetime_ltb now' now = false ->
      _is_past_datetime now' d t = true)
  /\ (forall d t, _is_past_datetime (combine d t) d t = false)
  /\ (forall e e' user cid d s t w w',
        create_reservation e user cid d s t w = (Ok (false, MSG_PAST), w) ->
        datetime_ltb (now e') (now e) = false ->
        create_reservation e' user cid d s t w' = (Ok (false, MSG_PAST), w')).
Proof.
  assert (later : forall now now' d t,
             _is_past_datetime now d t = true ->
             datetime_ltb now' now = false ->
             _is_past_datetime now' d t = true).
  { unfold _is_past_datetime, datetime_ltb. intros now now' d t.
    apply lex_ltb_later. reflexivity. }
  split; [exact later | split].
  - intros d t. apply lex_ltb_irrefl.
  - intros e e' user cid d s t w w'. unfold create_reservation.
    destruct (parse_inputs d s t) as [[[dobj sobj] tobj] | ex] eqn:parsed.
    + destruct (_is_past_datetime (now e) dobj sobj) eqn:past.
      * intros _ order. now rewrite (later _ _ _ _ past order).
      * destruct (negb (_is_valid_time_slot sobj tobj)); [discriminate |].
        destruct (scan_conflicts cid d sobj tobj (values (RESERVATIONS w)))
          as [[|] |]; discriminate.
    + destruct (parse_inputs_error _ _ _ _ parsed) as [-> | [x [-> | ->]]];
        discriminate.
Qed.

(** A request for the morning of 2026-11-03, made at noon and in the evening. *)
Lemma past_stays_past_witness :
  create_reservation (mk_env evening_2026 Written) "u1" 1 "2026-11-03" "09:00" "10:00"
    two_bookings
  = (Ok (false, MSG_PAST), two_bookings).
Proof.
  apply (proj2 (proj2 past_stays_past) env_ok _ _ _ _ _ _ empty_world).
  - vm_compute. reflexivity.
  - vm_compute. reflexivity.
Defined.

(** ** Examples of the order of the checks *)

(** One request for each rejection, in the order of the checks. *)
Lemma create_reservation_validation_order_witness :
  create_reservation env_ok "u1" 1 "2099-02-30" "x" "y" one_booking
  = (Ok (false, BAD_DATE_FORMAT ++ "2099-02-30")%string, one_booking)
  /\ create_reservation env_ok "u1" 1 "2020-01-01" "24:00" "y" one_booking
     = (Ok (false, BAD_TIME_FORMAT ++ "24:00")%string, one_booking)
  /\ create_reservation env_ok "u1" 1 "2020-01-01" "14:30" "16:00" one_booking
     = (Ok (false, MSG_PAST), one_booking)
  /\ create_reservation env_ok "u1" 1 "2099-01-01" "14:00" "16:00" one_booking
     = (Ok (false, MSG_SLOT), one_booking)
  /\ create_reservation env_ok "u2" 1 "2099-01-01" "14:00" "15:00" one_booking
     = (Ok (false, MSG_CONFLICT), one_booking).
Proof.
  split; [| split; [| split; [| split]]].
  - apply (proj1 (create_reservation_validation_order env_ok "u1" 1 "2099-02-30" "x" "y"
                    one_booking) (ValueError (BAD_DATE_FORMAT ++ "2099-02-30")%string)).
    vm_compute. reflexivity.
  - apply (proj1 (proj2 (create_reservation_validation_order env_ok "u1" 1 "2020-01-01"
                           "24:00" "y" one_booking) (mk_date 2020 1 1) eq_refl)
             (BAD_TIME_FORMAT ++ "24:00")%string).
    vm_compute. reflexivity.
  - apply (proj1 (proj2 (proj2 (proj2 (create_reservation_validation_order env_ok "u1" 1
             "2020-01-01" "14:30" "16:00" one_booking) (mk_date 2020 1 1) eq_refl)
             (mk_time 14 30) eq_refl) (mk_time 16 0) eq_refl)).
    vm_compute. reflexivity.
  - apply (proj1 (proj2 (proj2 (proj2 (proj2 (create_reservation_validation_order env_ok
             "u1" 1 "2099-01-01" "14:00" "16:00" one_booking) (mk_date 2099 1 1) eq_refl)
             (mk_time 14 0) eq_refl) (mk_time 16 0) eq_refl) eq_refl)).
    vm_compute. reflexivity.
  - apply (proj2 (proj2 (proj2 (proj2 (proj2 (create_reservation_validation_order env_ok
             "u2" 1 "2099-01-01" "14:00" "15:00" one_booking) (mk_date 2099 1 1) eq_refl)
             (mk_time 14 0) eq_refl) (mk_time 15 0) eq_refl) eq_refl)).
    + reflexivity.
    + unfold stored_times_parse. simpl. repeat constructor. vm_compute. discriminate.
    + exists booked_14, (mk_time 14 0), (mk_time 15 0).
      split; [now left | repeat split].
Defined.


(** The day of calls keeps the time strings of the two-booking store parseable. *)
Lemma stored_times_parse_preserved_witness :
  stored_times_parse (run busy_day two_bookings).
Proof.
  apply stored_times_parse_preserved.
  unfold stored_times_parse. simpl. repeat constructor; vm_compute; discriminate.
Defined.

(** ** Dictionaries of the other modules *)

Section Assoc_facts.
Context {K V : Type} (eqb : K -> K -> bool).
Hypothesis eqb_spec : forall a b : K, reflect (a = b) (eqb a b).

Lemma assoc_get_set_same (k : K) (v : V) d :
  assoc_get eqb k (assoc_set eqb k v d) = Some v.
Proof.
  induction d as [| [k' v'] d IH]; simpl.
  - now destruct (eqb_spec k k).
  - destruct (eqb_spec k' k) as [-> | ne]; simpl.
    + now destruct (eqb_spec k k).
    + now destruct (eqb_spec k' k).
Qed.

Lemma assoc_get_set_other (k j : K) (v : V) d :
  j <> k -> assoc_get eqb j (assoc_set eqb k v d) = assoc_get eqb j d.
Proof.
  intros ne. induction d as [| [k' v'] d IH]; simpl.
  - destruct (eqb_spec k j); [congruence | reflexivity].
  - destruct (eqb_spec k' k) as [-> | nk]; simpl.
    + destruct (eqb_spec k j); [congruence | reflexivity].
    + now rewrite IH.
Qed.

Lemma assoc_get_del_same (k : K) (d : list (K * V)) :
  assoc_get eqb k (assoc_del eqb k d) = None.
Proof.
  induction d as [| [k' v'] d IH]; simpl; [reflexivity |].
  destruct (eqb_spec k' k) as [-> | ne]; simpl; [exact IH |].
  now destruct (eqb_spec k' k).
Qed.

Lemma assoc_get_del_other (k j : K) (d : list (K * V)) :
  j <> k -> assoc_get eqb j (assoc_del eqb k d) = assoc_get eqb j d.
Proof.
  intros ne. induction d as [| [k' v'] d IH]; simpl; [reflexivity |].
  destruct (eqb_spec k' k) as [-> | nk]; simpl.
  - destruct (eqb_spec k j); [congruence | exact IH].
  - now rewrite IH.
Qed.

Lemma assoc_get_none (k : K) (d : list (K * V)) :
  assoc_get eqb k d = None <-> ~ In k (map fst d).
Proof.
  induction d as [| [k' v'] d IH]; simpl; [tauto |].
  destruct (eqb_spec k' k) as [-> | ne].
  - split; [discriminate | tauto].
  - rewrite IH. tauto.
Qed.

Lemma assoc_set_absent (k : K) (v : V) d :
  assoc_get eqb k d = None -> assoc_set eqb k v d = (d ++ [(k, v)])%list.
Proof.
  induction d as [| [k' v'] d IH]; simpl; [reflexivity |].
  destruct (eqb_spec k' k); [discriminate |].
  intros absent. now rewrite IH.
Qed.

Lemma assoc_set_present_keys (k : K) (v v0 : V) d :
  assoc_get eqb k d = Some v0 -> map fst (assoc_set eqb k v d) = map fst d.
Proof.
  induction d as [| [k' v'] d IH]; simpl; [discriminate |].
  destruct (eqb_spec k' k) as [-> | ne]; simpl; [reflexivity |].
  intros found. now rewrite IH.
Qed.

Lemma assoc_del_keys (k j : K) (d : list (K * V)) :
  In j (map fst (assoc_del eqb k d)) <-> In j (map fst d) /\ j <> k.
Proof.
  unfold assoc_del. rewrite !in_map_iff. split.
  - intros [[j' v] [<- mem]]. apply filter_In in mem. destruct mem as [mem keep].
    simpl in *. split; [now exists (j', v) |].
    destruct (eqb_spec j' k); [discriminate | assumption].
  - intros [[[j' v] [<- mem]] ne]. exists (j', v). split; [reflexivity |].
    apply filter_In. split; [exact mem |]. simpl in *.
    now destruct (eqb_spec j' k).
Qed.
End Assoc_facts.

(** ** The classroom catalog *)

Lemma classroom_fresh_counter w :
  classroom_db.counter_above_ids w ->
  assoc_get Z.eqb (classroom_db._next_id w) (classroom_db.CLASSROOMS w) = None.
Proof.
  unfold classroom_db.counter_above_ids. rewrite Forall_forall. intros inv.
  apply (assoc_get_none Z.eqb Z.eqb_spec). intros mem. specialize (inv _ mem). lia.
Qed.

Lemma classroom_saved_memory o w :
  classroom_db.CLASSROOMS (classroom_db._save_classrooms o w) = classroom_db.CLASSROOMS w
  /\ classroom_db._next_id (classroom_db._save_classrooms o w) = classroom_db._next_id w.
Proof. destruct o; simpl; auto. Qed.



Lemma assoc_set_twice {V : Type} (k : Z) (v v' : V) d :
  assoc_set Z.eqb k v (assoc_set Z.eqb k v' d) = assoc_set Z.eqb k v d.
Proof.
  induction d as [| [k0 v0] d IH]; simpl.
  - now rewrite Z.eqb_refl.
  - destruct (Z.eqb_spec k0 k) as [-> | ne]; simpl.
    + now rewrite Z.eqb_refl.
    + destruct (Z.eqb_spec k0 k); [contradiction | now rewrite IH].
Qed.

Lemma with_fields_given n l cap e c :
  classroom_db.with_fields n l cap e c
  = classroom_db.mk_classroom
      (match n with Some x => x | None => classroom_db.name c end)
      (match l with Some x => x | None => classroom_db.location c end)
      (match cap with Some x => x | None => classroom_db.capacity c end)
      (match e with Some x => x | None => classroom_db.equipment c end).
Proof. destruct c, n, l, cap, e; reflexivity. Qed.

Lemma with_fields_twice n l cap e c :
  classroom_db.with_fields n l cap e (classroom_db.with_fields n l cap e c)
  = classroom_db.with_fields n l cap e c.
Proof. destruct c, n, l, cap, e; reflexivity. Qed.

Lemma update_classroom_found o i n l cap e w c :
  classroom_db.get_classroom i w = Some c ->
  fst (classroom_db.update_classroom o i n l cap e w) = true
  /\ classroom_db.CLASSROOMS (snd (classroom_db.update_classroom o i n l cap e w))
     = assoc_set Z.eqb i (classroom_db.with_fields n l cap e c) (classroom_db.CLASSROOMS w)
  /\ classroom_db._next_id (snd (classroom_db.update_classroom o i n l cap e w))
     = classroom_db._next_id w.
Proof.
  unfold classroom_db.get_classroom, classroom_db.update_classroom. intros ->.
  destruct o; simpl; auto.
Qed.





(** ** Classroom ids *)

Lemma assoc_set_keys {V : Type} (k j : Z) (v : V) d :
  In j (map fst (assoc_set Z.eqb k v d)) -> j = k \/ In j (map fst d).
Proof.
  induction d as [| [k0 v0] d IH]; simpl.
  - intuition auto.
  - destruct (Z.eqb_spec k0 k); simpl; intuition auto.
Qed.

Lemma classroom_step_cases c w :
  (forall j, In j (map fst (classroom_db.CLASSROOMS (classroom_db.step c w))) ->
     In j (map fst (classroom_db.CLASSROOMS w)))
  /\ classroom_db._next_id (classroom_db.step c w) = classroom_db._next_id w
  \/ (forall j, In j (map fst (classroom_db.CLASSROOMS (classroom_db.step c w))) ->
        j = classroom_db._next_id w \/ In j (map fst (classroom_db.CLASSROOMS w)))
     /\ classroom_db._next_id (classroom_db.step c w) = classroom_db._next_id w + 1.
Proof.
  destruct c as [o n l cap e | o i n l cap e | o i]; simpl.
  - right. unfold classroom_db.create_classroom. simpl.
    destruct o; simpl; (split; [intros j; apply assoc_set_keys | reflexivity]).
  - left. unfold classroom_db.update_classroom.
    destruct (assoc_get Z.eqb i (classroom_db.CLASSROOMS w)) as [c |] eqn:found;
      [| now split].
    destruct o; simpl; (split; [| reflexivity]); intros j mem;
      now rewrite (assoc_set_present_keys Z.eqb Z.eqb_spec _ _ c) in mem.
  - left. unfold classroom_db.delete_classroom.
    destruct (assoc_mem Z.eqb i (classroom_db.CLASSROOMS w)); [| now split].
    destruct o; simpl; (split; [| reflexivity]); intros j mem;
      now apply (assoc_del_keys Z.eqb Z.eqb_spec) in mem.
Qed.

(** Where the counter is above the ids of the catalog, create, update and
    delete keep it so and never lower it; so an id that is or was in the
    catalog stays below the counter, and [create_classroom] never returns
    it again. *)
Theorem classroom_ids_are_never_reused :
  (forall cs w,
      classroom_db.counter_above_ids w ->
      classroom_db.counter_above_ids (classroom_db.run cs w)
      /\ classroom_db._next_id w <= classroom_db._next_id (classroom_db.run cs w))
  /\ (forall cs w i o n l cap e,
        classroom_db.counter_above_ids w ->
        In i (map fst (classroom_db.CLASSROOMS w)) ->
        i < fst (classroom_db.create_classroom o n l cap e (classroom_db.run cs w))).
Proof.
  assert (one : forall c w,
             classroom_db.counter_above_ids w ->
             classroom_db.counter_above_ids (classroom_db.step c w)
             /\ classroom_db._next_id w <= classroom_db._next_id (classroom_db.step c w)).
  { intros c w. unfold classroom_db.counter_above_ids. rewrite !Forall_forall.
    intros inv.
    destruct (classroom_step_cases c w) as [[ks ->] | [ks ->]].
    - split; [| lia]. intros k mem. apply inv, ks, mem.
    - split; [| lia]. intros k mem.
      destruct (ks k mem) as [-> | old]; [lia | specialize (inv k old); lia]. }
  assert (many : forall cs w,
             classroom_db.counter_above_ids w ->
             classroom_db.counter_above_ids (classroom_db.run cs w)
             /\ classroom_db._next_id w <= classroom_db._next_id (classroom_db.run cs w)).
  { induction cs as [| c cs IH]; intros w inv; simpl; [split; [exact inv | lia] |].
    destruct (one c w inv) as [inv1 le1].
    destruct (IH _ inv1) as [inv2 le2]. split; [exact inv2 | lia]. }
  split; [exact many |].
  intros cs w i o n l cap e inv mem.
  destruct (many cs w inv) as [_ le].
  unfold classroom_db.counter_above_ids in inv. rewrite Forall_forall in inv.
  specialize (inv i mem). unfold classroom_db.create_classroom. simpl. lia.
Qed.

(** Classroom 2 is deleted; the next classroom gets id 3, not 2. *)
Lemma classroom_ids_are_never_reused_witness :
  2 < fst (classroom_db.create_classroom classroom_db.Written "404" "Annex" 8 None
             (classroom_db.run room_calls two_rooms))
  /\ map fst (classroom_db.CLASSROOMS (classroom_db.run room_calls two_rooms)) = [1; 3].
Proof.
  split; [| vm_compute; reflexivity].
  apply (proj2 classroom_ids_are_never_reused room_calls two_rooms 2).
  - unfold classroom_db.counter_above_ids. simpl. repeat constructor; lia.
  - simpl. auto.
Defined.

(** ** Registered users *)

Lemma string_eqb_reflect (a b : string) : reflect (a = b) (a =? b)%string.
Proof. apply String.eqb_spec. Qed.

Lemma register_get r w u :
  user_db.get_user u (user_db.register r w)
  = match user_db.get_user u w with
    | Some x => Some x
    | None =>
        if (user_db.reg_user_id r =? u)%string
        then Some (user_db.mk_user (user_db.reg_password r) (user_db.reg_role r))
        else None
    end.
Proof.
  unfold user_db.register, user_db.register_user, user_db.get_user, assoc_mem.
  destruct (assoc_get String.eqb (user_db.reg_user_id r) (user_db.USERS w))
    as [x |] eqn:known; simpl.
  - destruct (assoc_get String.eqb u (user_db.USERS w)) as [y |] eqn:found;
      [reflexivity |].
    destruct (String.eqb_spec (user_db.reg_user_id r) u) as [same | other];
      [| reflexivity].
    rewrite same in known. congruence.
  - assert (stored : user_db.USERS
                       (user_db._save_users (user_db.reg_outcome r)
                          (user_db.mk_world
                             (assoc_set String.eqb (user_db.reg_user_id r)
                                (user_db.mk_user (user_db.reg_password r)
                                   (user_db.reg_role r)) (user_db.USERS w))
                             (user_db.file w)))
                     = assoc_set String.eqb (user_db.reg_user_id r)
                         (user_db.mk_user (user_db.reg_password r) (user_db.reg_role r))
                         (user_db.USERS w))
      by (destruct (user_db.reg_outcome r); reflexivity).
    rewrite stored.
    destruct (String.eqb_spec (user_db.reg_user_id r) u) as [<- | other].
    + rewrite known. apply (assoc_get_set_same String.eqb string_eqb_reflect).
    + rewrite (assoc_get_set_other String.eqb string_eqb_reflect); [| congruence].
      now destruct (assoc_get String.eqb u (user_db.USERS w)).
Qed.

Lemma register_user_free o u p r w :
  user_db.get_user u w = None ->
  fst (user_db.register_user o u p r w) = true
  /\ user_db.get_user u (snd (user_db.register_user o u p r w)) = Some (user_db.mk_user p r).
Proof.
  intros absent.
  pose proof (register_get (user_db.mk_registration o u p r) w u) as found.
  unfold user_db.register in found. simpl in found.
  rewrite absent, String.eqb_refl in found. split; [| exact found].
  unfold user_db.register_user, user_db.get_user, assoc_mem in *. now rewrite absent.
Qed.

(** [register_user] answers True exactly for a user id that is not yet
    registered, and then the password and the role are found under the id;
    for a registered id it answers False and changes nothing. So after any
    sequence of registrations a user id holds what the store held for it
    before, or else what the first request for it gave: no later request
    replaces a password or a role. *)
Theorem first_registration_wins :
  (forall o u p r w,
      fst (user_db.register_user o u p r w) = true <-> user_db.get_user u w = None)
  /\ (forall o u p r w,
        user_db.get_user u w = None ->
        user_db.get_user u (snd (user_db.register_user o u p r w))
        = Some (user_db.mk_user p r)
        /\ user_db.get_user_role u (snd (user_db.register_user o u p r w)) = Some r)
  /\ (forall o u p r w x,
        user_db.get_user u w = Some x ->
        user_db.register_user o u p r w = (false, w))
  /\ (forall rs w u,
        user_db.get_user u (user_db.register_all rs w)
        = match user_db.get_user u w with
          | Some x => Some x
          | None => user_db.first_request u rs
          end).
Proof.
  split; [| split; [| split]].
  - intros o u p r w. unfold user_db.register_user, user_db.get_user, assoc_mem.
    destruct (assoc_get String.eqb u (user_db.USERS w)); simpl;
      split; congruence.
  - intros o u p r w absent.
    pose proof (register_get (user_db.mk_registration o u p r) w u) as found.
    unfold user_db.register in found. simpl in found.
    rewrite absent, String.eqb_refl in found.
    unfold user_db.get_user_role. now rewrite found.
  - intros o u p r w x. unfold user_db.register_user, user_db.get_user, assoc_mem.
    now intros ->.
  - induction rs as [| r rs IH]; intros w u; simpl.
    + unfold user_db.first_request. simpl.
      now destruct (user_db.get_user u w).
    + rewrite IH, register_get. unfold user_db.first_request. simpl.
      destruct (user_db.get_user u w); [reflexivity |].
      now destruct (user_db.reg_user_id r =? u)%string.
Qed.

(** Three requests on a store that knows u1: the second and the third
    lose. *)
Lemma first_registration_wins_witness :
  user_db.get_user "u1" (user_db.register_all three_requests one_user)
  = Some (user_db.mk_user "secret" user_db.Student)
  /\ user_db.get_user "u2" (user_db.register_all three_requests one_user)
     = Some (user_db.mk_user "first" user_db.Admin)
  /\ user_db.register_user user_db.Written "u1" "other" user_db.Admin one_user
     = (false, one_user).
Proof.
  destruct first_registration_wins as (_ & _ & refused & sequence).
  split; [| split].
  - rewrite sequence. reflexivity.
  - rewrite sequence. reflexivity.
  - apply (refused _ _ _ _ _ (user_db.mk_user "secret" user_db.Student)). reflexivity.
Defined.

(** ** Who may change the catalog *)

Lemma require_admin_cases s st :
  (main.get_current_user s st = None
   /\ main.require_admin s st = main.HTTPException 401 main.LOGIN_REQUIRED)
  \/ (exists user,
        main.get_current_user s st = Some user /\ main.cu_role user = user_db.Student
        /\ main.require_admin s st = main.HTTPException 403 main.ADMIN_REQUIRED)
  \/ (exists user,
        main.get_current_user s st = Some user /\ main.cu_role user = user_db.Admin
        /\ main.require_admin s st = main.Returns user).
Proof.
  unfold main.require_admin, main.require_auth.
  destruct (main.get_current_user s st) as [[u [|]] |]; simpl.
  - right; left. now eexists.
  - right; right. now eexists.
  - now left.
Qed.


(** ** Logging in *)

(** [post_login] redirects to the main page exactly when the user id is
    registered and the password is the stored one, and then the session
    holds the user id and the stored role, so that a non-empty user id is
    the current user from then on; in every other case the session stays as
    it was. After [logout] nobody is the current user. *)
Theorem post_login_spec (s : main.session) (u p : string) (st : main.site) :
  (forall user,
      user_db.get_user u (main.users st) = Some user -> user_db.password user = p ->
      main.post_login s u p st
      = (main.RedirectResponse "/" 303,
         main.mk_session (Some u) (Some (user_db.role user)))
      /\ (u <> "" ->
          main.get_current_user (snd (main.post_login s u p st)) st
          = Some (main.mk_current_user u (user_db.role user))))
  /\ ((forall user,
          user_db.get_user u (main.users st) = Some user -> user_db.password user <> p) ->
      main.post_login s u p st
      = (main.TemplateResponse "login.html"
           [("request", main.VRequest s); ("error_message", main.VStr main.WRONG_LOGIN)],
         s))
  /\ main.get_current_user (snd (main.logout s)) st = None.
Proof.
  unfold main.post_login. split; [| split].
  - intros user found right. rewrite found.
    apply String.eqb_eq in right. rewrite right. simpl.
    split; [reflexivity |]. intros filled.
    unfold main.get_current_user. simpl.
    apply String.eqb_neq in filled. now rewrite filled, found.
  - intros wrong. destruct (user_db.get_user u (main.users st)) as [user |];
      [| reflexivity].
    specialize (wrong user eq_refl). apply String.eqb_neq in wrong.
    now rewrite wrong.
  - reflexivity.
Qed.

(** A user id that is free can be registered with the role Admin by
    whoever sends the form; after logging in with the password just chosen
    the session passes [require_admin]. *)
Theorem anyone_can_register_as_admin o (s : main.session) (u p : string) (st : main.site) :
  u <> "" -> p <> "" -> user_db.get_user u (main.users st) = None ->
  let registered := main.post_register o s u p user_db.Admin st in
  let logged_in := main.post_login s u p (snd registered) in
  fst registered = main.RedirectResponse "/login" 303
  /\ fst logged_in = main.RedirectResponse "/" 303
  /\ main.require_admin (snd logged_in) (snd registered)
     = main.Returns (main.mk_current_user u user_db.Admin).
Proof.
  intros filled_u filled_p free. cbv zeta.
  unfold main.post_register.
  apply String.eqb_neq in filled_u, filled_p. rewrite filled_u, filled_p. simpl.
  destruct (register_user_free o u p user_db.Admin _ free) as [ok found].
  destruct (user_db.register_user o u p user_db.Admin (main.users st))
    as [registered users'].
  simpl in ok, found. subst registered. simpl.
  split; [reflexivity |].
  unfold main.post_login. simpl. rewrite found. simpl. rewrite String.eqb_refl. simpl.
  split; [reflexivity |].
  unfold main.require_admin, main.require_auth, main.get_current_user. simpl.
  now rewrite filled_u, found.
Qed.

(** ** Reservations through the forms *)

Lemma require_auth_cases s st :
  (main.get_current_user s st = None
   /\ main.require_auth s st = main.HTTPException 401 main.LOGIN_REQUIRED)
  \/ (exists user,
        main.get_current_user s st = Some user
        /\ main.require_auth s st = main.Returns user).
Proof.
  unfold main.require_auth.
  destruct (main.get_current_user s st) as [u |]; [right; now exists u | now left].
Qed.

(** [create_reservation_post] answers 401 without a current user and shows
    the form again for a classroom that is not in the catalog, both without
    any change. For a current user and a classroom of the catalog it calls
    [create_reservation] with the current user's id. So when it redirects
    to the classroom list, the new reservation is stored under the counter
    value, belongs to the current user and is for a classroom of the
    catalog, and the users and the catalog are as before. *)
Theorem create_reservation_post_spec e (s : main.session) cid d a b (st : main.site) :
  (main.get_current_user s st = None ->
     main.create_reservation_post e s cid d a b st
     = (main.HTTPException 401 main.LOGIN_REQUIRED, st))
  /\ (forall user,
        main.get_current_user s st = Some user ->
        classroom_db.get_classroom cid (main.rooms st) = None ->
        main.create_reservation_post e s cid d a b st
        = (main.Returns
             (main.TemplateResponse "reservation_form.html"
                [("request", main.VRequest s); ("user", main.VUser user);
                 ("classrooms", main.VClassrooms (classroom_db.CLASSROOMS (main.rooms st)));
                 ("error_message", main.VStr main.UNKNOWN_CLASSROOM)]), st))
  /\ (forall user c,
        main.get_current_user s st = Some user ->
        classroom_db.get_classroom cid (main.rooms st) = Some c ->
        snd (main.create_reservation_post e s cid d a b st)
        = main.mk_site (main.users st) (main.rooms st)
            (snd (create_reservation e (main.cu_user_id user) cid d a b (main.bookings st))))
  /\ (forall st',
        main.create_reservation_post e s cid d a b st
        = (main.Returns (main.RedirectResponse "/classrooms" 303), st') ->
        exists user c,
          main.get_current_user s st = Some user
          /\ classroom_db.get_classroom cid (main.rooms st) = Some c
          /\ get_reservation (_next_id (main.bookings st)) (main.bookings st')
             = Some (mk_reservation (main.cu_user_id user) cid d a b)
          /\ main.users st' = main.users st
          /\ main.rooms st' = main.rooms st).
Proof.
  unfold main.create_reservation_post, classroom_db.get_classroom,
    classroom_db.get_all_classrooms, assoc_mem.
  destruct (require_auth_cases s st) as [[none ->] | (u & some & ->)].
  - split; [reflexivity |].
    split; [intros user found; congruence |].
    split; [intros user c found; congruence | discriminate].
  - split; [congruence |].
    split.
    { intros user found ->. assert (user = u) by congruence. now subst. }
    split.
    { intros user c found ->. assert (user = u) by congruence. subst. simpl.
      destruct (create_reservation e (main.cu_user_id u) cid d a b (main.bookings st))
        as [[[[|] msg] | ex] w']; reflexivity. }
    intros st'.
    destruct (assoc_get Z.eqb cid (classroom_db.CLASSROOMS (main.rooms st)))
      as [c |]; simpl; [| discriminate].
    destruct (create_reservation e (main.cu_user_id u) cid d a b (main.bookings st))
      as [[[[|] msg] | ex] w'] eqn:call; try discriminate.
    intros [= <-]. exists u, c. simpl.
    apply create_reservation_success_inv in call. destruct call as (_ & -> & _).
    unfold get_reservation.
    destruct (created_memory e (main.cu_user_id u) cid d a b (main.bookings st)) as [-> _].
    rewrite dict_get_set_same. auto.
Qed.

Lemma cancel_reservation_post_site o s i st :
  snd (main.cancel_reservation_post o s i st)
  = match main.require_auth s st with
    | main.Returns user =>
        main.mk_site (main.users st) (main.rooms st)
          (snd (cancel_reservation o i (main.cu_user_id user) (main.bookings st)))
    | _ => st
    end.
Proof.
  unfold main.cancel_reservation_post.
  destruct (main.require_auth s st) as [u | code detail | ex]; try reflexivity.
  destruct (cancel_reservation o i (main.cu_user_id u) (main.bookings st))
    as [[[|] msg] w']; simpl; [reflexivity |].
  now destruct (main.my_listing u (main.mk_site (main.users st) (main.rooms st) w')).
Qed.

(** A request through [cancel_reservation_post] never removes or changes a
    reservation of anybody but the current user, whatever id it names; it
    changes neither the users nor the catalog. *)
Theorem cancel_reservation_post_keeps_others o (s : main.session) i (st : main.site) :
  (forall j r,
      get_reservation j (main.bookings st) = Some r ->
      (forall user, main.get_current_user s st = Some user ->
                    user_id r <> main.cu_user_id user) ->
      get_reservation j (main.bookings (snd (main.cancel_reservation_post o s i st)))
      = Some r)
  /\ main.users (snd (main.cancel_reservation_post o s i st)) = main.users st
  /\ main.rooms (snd (main.cancel_reservation_post o s i st)) = main.rooms st.
Proof.
  rewrite cancel_reservation_post_site.
  destruct (require_auth_cases s st) as [[none ->] | (u & some & ->)].
  - auto.
  - simpl. split; [| auto].
    intros j r found other. specialize (other u some).
    unfold cancel_reservation, get_reservation in *.
    destruct (dict_get i (RESERVATIONS (main.bookings st))) as [r' |] eqn:target;
      [| exact found].
    destruct (String.eqb_spec (user_id r') (main.cu_user_id u)) as [mine | theirs];
      simpl; [| exact found].
    assert (ne : j <> i) by (intros ->; congruence).
    destruct o; simpl; now rewrite dict_get_del_other.
Qed.

(** ** The listing pages *)

Lemma key_ltb_not_trans a b c :
  key_ltb b a = false -> key_ltb c b = false -> key_ltb c a = false.
Proof.
  rewrite <- !not_true_iff_false, !key_ltb_compare.
  apply (cmp_not_lt_trans _ key_compare key_compare_eq key_compare_antisym
           key_compare_lt_trans).
Qed.

Lemma key_ltb_asym a b : key_ltb a b = true -> key_ltb b a = false.
Proof.
  rewrite <- not_true_iff_false, !key_ltb_compare.
  apply (cmp_lt_not_gt _ key_compare key_compare_antisym).
Qed.

Section Sort_by_facts.
Context {A : Type} (key : A -> string * string).

Lemma insert_by_perm x l : Permutation (insert_by key x l) (x :: l).
Proof.
  induction l as [| y l IH]; simpl; [reflexivity |].
  destruct (key_ltb (key y) (key x)); [| reflexivity].
  rewrite IH. apply perm_swap.
Qed.

Lemma sort_by_perm l : Permutation (sort_by key l) l.
Proof.
  induction l as [| x l IH]; simpl; [reflexivity |].
  rewrite insert_by_perm. now constructor.
Qed.

Lemma insert_by_sorted x l :
  StronglySorted (fun a b => key_ltb (key b) (key a) = false) l ->
  StronglySorted (fun a b => key_ltb (key b) (key a) = false) (insert_by key x l).
Proof.
  induction 1 as [| y l sorted IH above]; simpl.
  - repeat constructor.
  - destruct (key_ltb (key y) (key x)) eqn:below.
    + constructor; [exact IH |].
      rewrite Forall_forall in *. intros z mem.
      apply (Permutation_in _ (insert_by_perm x l)) in mem.
      destruct mem as [<- | old]; [now apply key_ltb_asym | now apply above].
    + constructor; [now constructor |].
      constructor; [exact below |].
      rewrite Forall_forall in *. intros z mem.
      apply (key_ltb_not_trans _ (key y)); [exact below | now apply above].
Qed.

Lemma sort_by_sorted l :
  StronglySorted (fun a b => key_ltb (key b) (key a) = false) (sort_by key l).
Proof.
  induction l as [| x l IH]; simpl; [constructor | now apply insert_by_sorted].
Qed.
End Sort_by_facts.

Lemma sorted_app {A : Type} (R : A -> A -> Prop) l1 l2 :
  StronglySorted R l1 -> StronglySorted R l2 ->
  (forall a b, In a l1 -> In b l2 -> R a b) ->
  StronglySorted R (l1 ++ l2)%list.
Proof.
  induction 1 as [| x l1 sorted IH above]; intros s2 cross; simpl; [exact s2 |].
  constructor.
  - apply IH; [exact s2 |]. intros a b ma mb. apply cross; [now right | exact mb].
  - rewrite Forall_forall in *. intros y mem. apply in_app_or in mem.
    destruct mem as [m1 | m2]; [now apply above | apply cross; [now left | exact m2]].
Qed.

Lemma sorted_rev {A : Type} (R : A -> A -> Prop) l :
  StronglySorted R l -> StronglySorted (fun a b => R b a) (rev l).
Proof.
  induction 1 as [| x l sorted IH above]; simpl; [constructor |].
  apply sorted_app; [exact IH | repeat constructor |].
  rewrite Forall_forall in above.
  intros a b ma [<- | []]. apply above. now apply in_rev.
Qed.

Lemma with_classrooms_entries reservations st l :
  main.with_classrooms reservations st = Ok l ->
  map (fun x => (main.listed_id x, main.listed_reservation x)) l = reservations
  /\ Forall (fun x =>
       match classroom_db.get_classroom (classroom_id (main.listed_reservation x))
               (main.rooms st) with
       | Some c =>
           main.classroom_name x = classroom_db.name c
           /\ main.classroom_location x = classroom_db.location c
       | None =>
           (exists number,
               py_str (classroom_id (main.listed_reservation x)) = Ok number
               /\ main.classroom_name x = ("강의실 " ++ number)%string)
           /\ main.classroom_location x = ""
       end) l.
Proof.
  revert l. induction reservations as [| [i r] rest IH]; intros l; simpl.
  - intros [= <-]. split; [reflexivity | constructor].
  - unfold bind.
    destruct (classroom_db.get_classroom (classroom_id r) (main.rooms st))
      as [c |] eqn:found.
    + destruct (main.with_classrooms rest st) as [others |]; [| discriminate].
      intros [= <-]. destruct (IH others eq_refl) as [same shown]. simpl.
      split; [now rewrite same |]. constructor; [| exact shown].
      simpl. now rewrite found.
    + destruct (py_str (classroom_id r)) as [number |] eqn:text; [| discriminate].
      destruct (main.with_classrooms rest st) as [others |]; [| discriminate].
      intros [= <-]. destruct (IH others eq_refl) as [same shown]. simpl.
      split; [now rewrite same |]. constructor; [| exact shown].
      simpl. rewrite found. split; [now exists number | reflexivity].
Qed.



(** ** Examples of the handlers *)


(** The right and a wrong password for u1. *)
Lemma post_login_spec_witness :
  main.post_login main.no_session "u1" "secret" campus
  = (main.RedirectResponse "/" 303, as_u1)
  /\ snd (main.post_login main.no_session "u1" "guess" campus) = main.no_session.
Proof.
  split.
  - apply (proj1 (post_login_spec main.no_session "u1" "secret" campus)
             (user_db.mk_user "secret" user_db.Student)); reflexivity.
  - rewrite (proj1 (proj2 (post_login_spec main.no_session "u1" "guess" campus)));
      [reflexivity |].
    intros user [= <-]. discriminate.
Defined.

(** A visitor registers as administrator. *)
Lemma anyone_can_register_as_admin_witness :
  main.require_admin
    (snd (main.post_login main.no_session "visitor" "x"
            (snd (main.post_register user_db.Written main.no_session "visitor" "x"
                    user_db.Admin campus))))
    (snd (main.post_register user_db.Written main.no_session "visitor" "x"
            user_db.Admin campus))
  = main.Returns (main.mk_current_user "visitor" user_db.Admin).
Proof.
  apply (anyone_can_register_as_admin user_db.Written main.no_session "visitor" "x" campus).
  - discriminate.
  - discriminate.
  - reflexivity.
Defined.

(** u1 books classroom 2, and asks for a classroom that is not there. *)
Lemma create_reservation_post_spec_witness :
  (exists st',
      main.create_reservation_post env_ok as_u1 2 "2099-01-01" "16:00" "17:00" campus
      = (main.Returns (main.RedirectResponse "/classrooms" 303), st')
      /\ get_reservation 5 (main.bookings st')
         = Some (mk_reservation "u1" 2 "2099-01-01" "16:00" "17:00"))
  /\ snd (main.create_reservation_post env_ok as_u1 9 "2099-01-01" "16:00" "17:00" campus)
     = campus.
Proof.
  split.
  - assert (call :
      main.create_reservation_post env_ok as_u1 2 "2099-01-01" "16:00" "17:00" campus
      = (main.Returns (main.RedirectResponse "/classrooms" 303),
         snd (main.create_reservation_post env_ok as_u1 2 "2099-01-01" "16:00" "17:00"
                campus))) by (vm_compute; reflexivity).
    destruct (proj2 (proj2 (proj2 (create_reservation_post_spec env_ok as_u1 2
                "2099-01-01" "16:00" "17:00" campus))) _ call)
      as (user & c & current & _ & stored & _).
    eexists. split; [exact call |].
    injection current as <-. exact stored.
  - rewrite (proj1 (proj2 (create_reservation_post_spec env_ok as_u1 9 "2099-01-01"
                             "16:00" "17:00" campus))
               (main.mk_current_user "u1" user_db.Student)); reflexivity.
Defined.

(** u1 asks to cancel the reservation of u2. *)
Lemma cancel_reservation_post_keeps_others_witness :
  get_reservation 4
    (main.bookings (snd (main.cancel_reservation_post Written as_u1 4 campus)))
  = Some booked_15.
Proof.
  apply (proj1 (cancel_reservation_post_keeps_others Written as_u1 4 campus)).
  - reflexivity.
  - intros user [= <-]. discriminate.
Defined.



(** ** The registration form *)

(** [post_register] shows the form again, and registers nobody, when the
    user id or the password is empty or when the user id is taken; for a
    free user id and a non-empty password it stores the password and the
    role under the id and redirects to the login page. The classrooms and
    the reservations are never touched. *)
Theorem post_register_spec o (s : main.session) (u p : string) (r : user_db.Role)
  (st : main.site) :
  (u = "" \/ p = "" ->
     main.post_register o s u p r st
     = (main.TemplateResponse "register.html"
          [("request", main.VRequest s); ("error_message", main.VStr main.BOTH_REQUIRED)],
        st))
  /\ (forall known,
        u <> "" -> p <> "" -> user_db.get_user u (main.users st) = Some known ->
        main.post_register o s u p r st
        = (main.TemplateResponse "register.html"
             [("request", main.VRequest s);
              ("error_message", main.VStr (main.id_in_use u))],
           st))
  /\ (u <> "" -> p <> "" -> user_db.get_user u (main.users st) = None ->
      fst (main.post_register o s u p r st) = main.RedirectResponse "/login" 303
      /\ user_db.get_user u (main.users (snd (main.post_register o s u p r st)))
         = Some (user_db.mk_user p r))
  /\ main.rooms (snd (main.post_register o s u p r st)) = main.rooms st
  /\ main.bookings (snd (main.post_register o s u p r st)) = main.bookings st.
Proof.
  unfold main.post_register. split; [| split; [| split]].
  - intros [-> | ->]; simpl; [reflexivity |].
    now rewrite orb_true_r.
  - intros known filled_u filled_p found.
    apply String.eqb_neq in filled_u, filled_p. rewrite filled_u, filled_p. simpl.
    unfold user_db.register_user, user_db.get_user, assoc_mem in *. rewrite found.
    now destruct st.
  - intros filled_u filled_p free.
    apply String.eqb_neq in filled_u, filled_p. rewrite filled_u, filled_p. simpl.
    destruct (register_user_free o u p r _ free) as [ok found].
    destruct (user_db.register_user o u p r (main.users st)) as [registered users'].
    simpl in ok, found. subst registered. simpl. auto.
  - destruct ((u =? "")%string || (p =? "")%string); [auto |].
    destruct (user_db.register_user o u p r (main.users st)) as [[|] users']; auto.
Qed.

(** An empty password, a taken user id, and a registration that goes
    through. *)
Lemma post_register_spec_witness :
  snd (main.post_register user_db.Written main.no_session "u9" "" user_db.Student campus)
  = campus
  /\ snd (main.post_register user_db.Written main.no_session "u1" "new" user_db.Admin campus)
     = campus
  /\ user_db.get_user "u9"
       (main.users (snd (main.post_register user_db.Written main.no_session "u9" "pw9"
                           user_db.Student campus)))
     = Some (user_db.mk_user "pw9" user_db.Student).
Proof.
  split; [| split].
  - rewrite (proj1 (post_register_spec user_db.Written main.no_session "u9" ""
                      user_db.Student campus)); [reflexivity | now right].
  - rewrite (proj1 (proj2 (post_register_spec user_db.Written main.no_session "u1" "new"
                             user_db.Admin campus))
               (user_db.mk_user "secret" user_db.Student));
      [reflexivity | discriminate | discriminate | reflexivity].
  - apply (proj1 (proj2 (proj2 (post_register_spec user_db.Written main.no_session "u9"
                                  "pw9" user_db.Student campus))));
      [discriminate | discriminate | reflexivity].
Defined.
